(** * The capture / detect / chat session of the plant recognition front end

    A shallow embedding of the React component [App] of
    [frontend/src/App.jsx] and of its camera-enabled revision.

    The component keeps its session in [useState] cells.  Every handler is
    a closure over the cells of the render in which it was created; it
    queues updates with the setters and, for the two network calls,
    suspends at an [await].  The embedding follows that shape:

    - the cells are the fields of the record [State];
    - what lives outside the cells (requests in flight, the object URLs
      minted, the value of the file input, the console) is the rest of the
      record [World];
    - a handler is a function on [World] that reads the cells of the world
      it is called in (the render snapshot) and applies its setter calls
      in program order;
    - an [async] handler is split at its [await]: the part before it
      issues the request, the part after it ([..._resume]) runs when the
      request settles, on the world as it is by then.

    Text is [String.string], one character per code unit below 256. *)

From Stdlib Require Import Bool Arith List String Ascii Lia.
Import ListNotations.
Open Scope string_scope.

(** ** JavaScript values used by the component *)

Module Js.

(** A property that holds a string or is absent ([undefined]). *)
Definition prop := option string.

(** Truthiness of a string-or-absent property: absent and the empty
    string are falsy. *)
Definition truthy (v : prop) : bool :=
  match v with
  | Some s => negb (s =? "")
  | None => false
  end.

(** [a || b]. *)
Definition or (a b : prop) : prop := if truthy a then a else b.

(** [a || 'literal']. *)
Definition or_lit (a : prop) (b : string) : string :=
  match a with
  | Some s => if s =? "" then b else s
  | None => b
  end.

(** WhiteSpace and LineTerminator code units below 256: TAB, LF, VT, FF,
    CR, SP and NBSP. *)
Definition isWhiteSpace (c : ascii) : bool :=
  let n := nat_of_ascii c in
  ((9 <=? n)%nat && (n <=? 13)%nat) || (n =? 32)%nat || (n =? 160)%nat.

Fixpoint trimStart (s : string) : string :=
  match s with
  | EmptyString => EmptyString
  | String c r => if isWhiteSpace c then trimStart r else s
  end.

Fixpoint rev (s : string) : string :=
  match s with
  | EmptyString => EmptyString
  | String c r => rev r ++ String c EmptyString
  end.

Definition trimEnd (s : string) : string := rev (trimStart (rev s)).

(** [String.prototype.trim]. *)
Definition trim (s : string) : string := trimEnd (trimStart s).

(** Truthiness of a string. *)
Definition truthy_str (s : string) : bool := negb (s =? "").

End Js.

(** ** Data model *)

Module Api.

(** A [File] (or [Blob]) handed over by the file input or the canvas. *)
Record File := mkFile {
  file_name : string;
  file_type : string;
  file_bytes : string
}.

(** The result of [URL.createObjectURL]: a fresh URL for a blob. *)
Record ObjectURL := mkObjectURL {
  url_serial : nat;
  url_blob : File
}.

(** One element of [plant_data]. *)
Record PlantRecord := mkPlant {
  name : Js.prop;
  scientific_name : Js.prop;
  common_name : Js.prop;
  local_name : Js.prop;
  family_name : Js.prop;
  medicinal_uses : Js.prop;
  error : Js.prop
}.

(** The body of a successful [/predict] response, in the shape the
    detection contract gives it: an object whose [plant_data], when
    present, is an array of records. *)
Record DetectionData := mkDetection {
  annotated_image : Js.prop;
  plant_data : option (list PlantRecord)
}.

(** The body of a successful [/chat] response. *)
Record ChatData := mkChatData {
  response : Js.prop;
  chat_error : Js.prop
}.

Inductive Sender := user | bot.

Record ChatMessage := mkMsg {
  sender : Sender;
  text : Js.prop
}.

(** How an awaited call settles: fulfilled with a body, or rejected. *)
Inductive Outcome (A : Type) :=
| Fulfilled (body : A)
| Rejected (err : string).
Arguments Fulfilled {A} body.
Arguments Rejected {A} err.

(** A request handed to [axios.post]. *)
Inductive Request :=
| Predict (file : File)
| Chat (plant_name message : string).

Definition isPredict (r : Request) : bool :=
  match r with Predict _ => true | Chat _ _ => false end.

Definition isChat (r : Request) : bool :=
  match r with Predict _ => false | Chat _ _ => true end.

End Api.

(** Handlers read top to bottom, as the source does. *)
Notation "w |> f" := (f w) (at level 45, left associativity, only parsing).

(** ** [frontend/src/App.jsx] *)

Module App.
Import Api.

Inductive Tab := detect | chat.

(** The [useState] cells of [App]. *)
Record State := mkState {
  activeTab : Tab;
  selectedFile : option File;
  previewUrl : option ObjectURL;
  isLoading : bool;
  error : Js.prop;
  detectionResult : option DetectionData;
  chatPlantName : string;
  chatInput : string;
  chatMessages : list ChatMessage;
  isChatLoading : bool;
  isDark : bool
}.

(** The initial values given to [useState]. *)
Definition initialState : State :=
  {| activeTab := detect; selectedFile := None; previewUrl := None;
     isLoading := false; error := None; detectionResult := None;
     chatPlantName := "your plant"; chatInput := ""; chatMessages := [];
     isChatLoading := false; isDark := false |}.

(** The component's cells together with what the handlers reach outside
    them. *)
Record World := mkWorld {
  cells : State;
  inflight : list (nat * Request);  (* requests awaiting their response *)
  issued : list Request;            (* every request posted, oldest first *)
  nextRequest : nat;
  minted : nat;                     (* object URLs created so far *)
  fileInputValue : option File;     (* fileInputRef.current.value *)
  console : list string             (* console.error *)
}.

Definition initialWorld : World :=
  {| cells := initialState; inflight := []; issued := []; nextRequest := 0;
     minted := 0; fileInputValue := None; console := [] |}.

(** *** Setters *)

Definition upd (f : State -> State) (w : World) : World :=
  {| cells := f (cells w); inflight := inflight w; issued := issued w;
     nextRequest := nextRequest w; minted := minted w;
     fileInputValue := fileInputValue w; console := console w |}.

Definition setActiveTab (v : Tab) (w : World) : World :=
  upd (fun s =>
    {| activeTab := v; selectedFile := selectedFile s;
       previewUrl := previewUrl s; isLoading := isLoading s;
       error := error s; detectionResult := detectionResult s;
       chatPlantName := chatPlantName s; chatInput := chatInput s;
       chatMessages := chatMessages s; isChatLoading := isChatLoading s;
       isDark := isDark s |}) w.

Definition setSelectedFile (v : option File) (w : World) : World :=
  upd (fun s =>
    {| activeTab := activeTab s; selectedFile := v;
       previewUrl := previewUrl s; isLoading := isLoading s;
       error := error s; detectionResult := detectionResult s;
       chatPlantName := chatPlantName s; chatInput := chatInput s;
       chatMessages := chatMessages s; isChatLoading := isChatLoading s;
       isDark := isDark s |}) w.

Definition setPreviewUrl (v : option ObjectURL) (w : World) : World :=
  upd (fun s =>
    {| activeTab := activeTab s; selectedFile := selectedFile s;
       previewUrl := v; isLoading := isLoading s;
       error := error s; detectionResult := detectionResult s;
       chatPlantName := chatPlantName s; chatInput := chatInput s;
       chatMessages := chatMessages s; isChatLoading := isChatLoading s;
       isDark := isDark s |}) w.

Definition setIsLoading (v : bool) (w : World) : World :=
  upd (fun s =>
    {| activeTab := activeTab s; selectedFile := selectedFile s;
       previewUrl := previewUrl s; isLoading := v;
       error := error s; detectionResult := detectionResult s;
       chatPlantName := chatPlantName s; chatInput := chatInput s;
       chatMessages := chatMessages s; isChatLoading := isChatLoading s;
       isDark := isDark s |}) w.

Definition setError (v : Js.prop) (w : World) : World :=
  upd (fun s =>
    {| activeTab := activeTab s; selectedFile := selectedFile s;
       previewUrl := previewUrl s; isLoading := isLoading s;
       error := v; detectionResult := detectionResult s;
       chatPlantName := chatPlantName s; chatInput := chatInput s;
       chatMessages := chatMessages s; isChatLoading := isChatLoading s;
       isDark := isDark s |}) w.

Definition setDetectionResult (v : option DetectionData) (w : World) : World :=
  upd (fun s =>
    {| activeTab := activeTab s; selectedFile := selectedFile s;
       previewUrl := previewUrl s; isLoading := isLoading s;
       error := error s; detectionResult := v;
       chatPlantName := chatPlantName s; chatInput := chatInput s;
       chatMessages := chatMessages s; isChatLoading := isChatLoading s;
       isDark := isDark s |}) w.

Definition setChatPlantName (v : string) (w : World) : World :=
  upd (fun s =>
    {| activeTab := activeTab s; selectedFile := selectedFile s;
       previewUrl := previewUrl s; isLoading := isLoading s;
       error := error s; detectionResult := detectionResult s;
       chatPlantName := v; chatInput := chatInput s;
       chatMessages := chatMessages s; isChatLoading := isChatLoading s;
       isDark := isDark s |}) w.

Definition setChatInput (v : string) (w : World) : World :=
  upd (fun s =>
    {| activeTab := activeTab s; selectedFile := selectedFile s;
       previewUrl := previewUrl s; isLoading := isLoading s;
       error := error s; detectionResult := detectionResult s;
       chatPlantName := chatPlantName s; chatInput := v;
       chatMessages := chatMessages s; isChatLoading := isChatLoading s;
       isDark := isDark s |}) w.

(** [setChatMessages] is called both with a value and with an updater
    [prev => ...]; the updater form covers both. *)
Definition setChatMessages (f : list ChatMessage -> list ChatMessage)
    (w : World) : World :=
  upd (fun s =>
    {| activeTab := activeTab s; selectedFile := selectedFile s;
       previewUrl := previewUrl s; isLoading := isLoading s;
       error := error s; detectionResult := detectionResult s;
       chatPlantName := chatPlantName s; chatInput := chatInput s;
       chatMessages := f (chatMessages s);
       isChatLoading := isChatLoading s; isDark := isDark s |}) w.

Definition setIsChatLoading (v : bool) (w : World) : World :=
  upd (fun s =>
    {| activeTab := activeTab s; selectedFile := selectedFile s;
       previewUrl := previewUrl s; isLoading := isLoading s;
       error := error s; detectionResult := detectionResult s;
       chatPlantName := chatPlantName s; chatInput := chatInput s;
       chatMessages := chatMessages s; isChatLoading := v;
       isDark := isDark s |}) w.

Definition setIsDark (v : bool) (w : World) : World :=
  upd (fun s =>
    {| activeTab := activeTab s; selectedFile := selectedFile s;
       previewUrl := previewUrl s; isLoading := isLoading s;
       error := error s; detectionResult := detectionResult s;
       chatPlantName := chatPlantName s; chatInput := chatInput s;
       chatMessages := chatMessages s; isChatLoading := isChatLoading s;
       isDark := v |}) w.

(** *** Effects outside the cells *)

(** [URL.createObjectURL(file)]: every call mints a new URL. *)
Definition createObjectURL (f : File) (w : World) : ObjectURL * World :=
  ({| url_serial := minted w; url_blob := f |},
   {| cells := cells w; inflight := inflight w; issued := issued w;
      nextRequest := nextRequest w; minted := S (minted w);
      fileInputValue := fileInputValue w; console := console w |}).

(** [axios.post(...)]: the request leaves and its promise is pending. *)
Definition post (r : Request) (w : World) : World :=
  {| cells := cells w;
     inflight := inflight w ++ [(nextRequest w, r)];
     issued := issued w ++ [r];
     nextRequest := S (nextRequest w); minted := minted w;
     fileInputValue := fileInputValue w; console := console w |}.

(** [console.error(err)]. *)
Definition console_error (err : string) (w : World) : World :=
  {| cells := cells w; inflight := inflight w; issued := issued w;
     nextRequest := nextRequest w; minted := minted w;
     fileInputValue := fileInputValue w; console := console w ++ [err] |}.

(** [fileInputRef.current.value = null]. *)
Definition resetFileInput (w : World) : World :=
  {| cells := cells w; inflight := inflight w; issued := issued w;
     nextRequest := nextRequest w; minted := minted w;
     fileInputValue := None; console := console w |}.

(** *** File handling *)

Definition defaultPlantName : string := "your plant".

Definition clearResults (w : World) : World :=
  w |> setDetectionResult None
    |> setError None
    |> setChatMessages (fun _ => [])
    |> setChatPlantName defaultPlantName.

(** [file] is [e.target.files[0]], absent when the event carries none. *)
Definition handleFileChange (file : option File) (w : World) : World :=
  match file with
  | Some f =>
      let w1 := w |> setSelectedFile (Some f) in
      let (url, w2) := createObjectURL f w1 in
      w2 |> setPreviewUrl (Some url) |> clearResults
  | None => w
  end.

(** The file input is rendered unconditionally, so [fileInputRef.current]
    is set whenever a handler runs. *)
Definition clearSelection (w : World) : World :=
  w |> setSelectedFile None
    |> setPreviewUrl None
    |> clearResults
    |> resetFileInput.

(** [handleFileChange] over a list of files, the oldest first. *)
Definition selectAll (fs : list File) (w : World) : World :=
  fold_left (fun w f => handleFileChange (Some f) w) fs w.

(** *** Detection *)

Definition detectionErrorText : string :=
  "An error occurred during detection. Is the backend server running?".

Definition greeting (plantName : string) : string :=
  "I've identified " ++ plantName
    ++ ". Feel free to ask me any questions about it!".

Definition notDetectedText : string :=
  "I couldn't detect a specific plant, but you can still ask general questions.".

(** [plant_data && plant_data.length > 0 && !plant_data[0].error]: the
    first record when the test passes. *)
Definition identified (data : DetectionData) : option PlantRecord :=
  match plant_data data with
  | Some (p :: _) => if Js.truthy (Api.error p) then None else Some p
  | Some [] => None
  | None => None
  end.

(** [handleSubmitDetection] up to its [await]. *)
Definition handleSubmitDetection (w : World) : World :=
  match selectedFile (cells w) with
  | None => w
  | Some f =>
      w |> setIsLoading true
        |> setError None
        |> setDetectionResult None
        |> post (Predict f)
  end.

(** [handleSubmitDetection] from its [await] on: the rest of the [try]
    block or the [catch] block, then [finally].  On a body of type
    [DetectionData] nothing in the [try] block throws.  (A [plant_data]
    with a [null] in first place is not a [DetectionData]: there
    [plant_data[0].error] throws once the result is stored, and the
    [catch] block runs as well.) *)
Definition handleSubmitDetection_resume (o : Outcome DetectionData)
    (w : World) : World :=
  (match o with
   | Fulfilled data =>
       let w1 := w |> setDetectionResult (Some data) in
       match identified data with
       | Some p =>
           let plantName := Js.or_lit (name p) defaultPlantName in
           w1 |> setChatPlantName plantName
              |> setChatMessages (fun _ =>
                   [ {| sender := bot; text := Some (greeting plantName) |} ])
       | None =>
           w1 |> setChatMessages (fun _ =>
                   [ {| sender := bot; text := Some notDetectedText |} ])
       end
   | Rejected err =>
       w |> console_error err
         |> setError (Some detectionErrorText)
   end) |> setIsLoading false.

(** *** Chat *)

Definition retryNotice : string :=
  "Sorry, I ran into an error. Please try again.".

(** [handleSubmitChat] up to its [await].  [chatInput] and [chatPlantName]
    are the values of the render the handler belongs to, also after
    [setChatInput('')].  [e.preventDefault()] only keeps the browser from
    reloading the page and has no counterpart here. *)
Definition handleSubmitChat (w : World) : World :=
  let input := chatInput (cells w) in
  let plant := chatPlantName (cells w) in
  if negb (Js.truthy_str (Js.trim input)) then w
  else
    let userMessage := {| sender := user; text := Some input |} in
    w |> setChatMessages (fun prev => (prev ++ [userMessage])%list)
      |> setChatInput ""
      |> setIsChatLoading true
      |> post (Chat plant input).

(** [handleSubmitChat] from its [await] on. *)
Definition handleSubmitChat_resume (o : Outcome ChatData) (w : World) : World :=
  (match o with
   | Fulfilled data =>
       let botMessage :=
         {| sender := bot; text := Js.or (response data) (chat_error data) |} in
       w |> setChatMessages (fun prev => (prev ++ [botMessage])%list)
   | Rejected err =>
       let errorMessage := {| sender := bot; text := Some retryNotice |} in
       w |> console_error err
         |> setChatMessages (fun prev => (prev ++ [errorMessage])%list)
   end) |> setIsChatLoading false.

(** *** The rendered interface

    What the user and the network can do to the component, with the
    guards the JSX puts on each control. *)

Inductive Event :=
| ChangeFile (file : option File)      (* change event of the file input *)
| ClickClear                           (* the X over the preview *)
| ClickDetect                          (* the Detect Plant button *)
| ClickTab (t : Tab)
| ToggleDark
| TypeChat (value : string)            (* change event of the chat input *)
| SubmitChat                           (* submit event of the chat form *)
| SettlePredict (id : nat) (o : Outcome DetectionData)
| SettleChat (id : nat) (o : Outcome ChatData).

(** The pending request [id], and the requests left once it is settled. *)
Fixpoint take (id : nat) (l : list (nat * Request))
    : option (Request * list (nat * Request)) :=
  match l with
  | [] => None
  | (i, r) :: rest =>
      if (i =? id)%nat then Some (r, rest)
      else match take id rest with
           | Some (r', rest') => Some (r', (i, r) :: rest')
           | None => None
           end
  end.

Definition settled (rest : list (nat * Request)) (w : World) : World :=
  {| cells := cells w; inflight := rest; issued := issued w;
     nextRequest := nextRequest w; minted := minted w;
     fileInputValue := fileInputValue w; console := console w |}.

Definition setFileInput (v : option File) (w : World) : World :=
  {| cells := cells w; inflight := inflight w; issued := issued w;
     nextRequest := nextRequest w; minted := minted w;
     fileInputValue := v; console := console w |}.

(** [disabled={!selectedFile || isLoading}] *)
Definition detectDisabled (s : State) : bool :=
  match selectedFile s with
  | None => true
  | Some _ => isLoading s
  end.

Definition dispatch (e : Event) (w : World) : World :=
  match e with
  | ChangeFile file => w |> setFileInput file |> handleFileChange file
  | ClickClear =>
      (* rendered under [previewUrl ? ... : ...] *)
      match previewUrl (cells w) with
      | Some _ => clearSelection w
      | None => w
      end
  | ClickDetect =>
      if detectDisabled (cells w) then w else handleSubmitDetection w
  | ClickTab t => setActiveTab t w
  | ToggleDark => setIsDark (negb (isDark (cells w))) w
  | TypeChat value =>
      (* rendered under [activeTab === 'chat'] *)
      match activeTab (cells w) with
      | chat => setChatInput value w
      | detect => w
      end
  | SubmitChat =>
      (* the form's submit button has [disabled={isChatLoading}] *)
      match activeTab (cells w) with
      | chat => if isChatLoading (cells w) then w else handleSubmitChat w
      | detect => w
      end
  | SettlePredict id o =>
      match take id (inflight w) with
      | Some (Predict _, rest) =>
          w |> settled rest |> handleSubmitDetection_resume o
      | _ => w
      end
  | SettleChat id o =>
      match take id (inflight w) with
      | Some (Chat _ _, rest) =>
          w |> settled rest |> handleSubmitChat_resume o
      | _ => w
      end
  end.

Definition run (es : list Event) (w : World) : World :=
  fold_left (fun w e => dispatch e w) es w.

Definition reachable (w : World) : Prop :=
  exists es, w = run es initialWorld.

(** Requests of a kind in flight. *)
Definition detectionsInFlight (w : World) : nat :=
  List.length (filter (fun p => isPredict (snd p)) (inflight w)).

(** The spinner is on exactly while one detection is in flight. *)
Definition oneDetection (w : World) : Prop :=
  detectionsInFlight w = if isLoading (cells w) then 1 else 0.

End App.

(** ** The camera revision of [App.jsx]

    The revision adds three cells ([cameraOpen], [cameraError],
    [cameraStream]), two refs and the handlers [startCamera] and
    [capturePhoto].  Its [handleFileChange], [clearResults] and
    [clearSelection] are those of [App], statement for statement, and are
    reused here on the [app] part of the world. *)

Module CameraApp.
Import Api.

Definition Track := nat.

(** A [MediaStream], as far as the component looks at it: its tracks. *)
Record MediaStream := mkStream {
  getTracks : list Track
}.

Record World := mkWorld {
  app : App.World;
  cameraOpen : bool;
  cameraError : Js.prop;
  cameraStream : option MediaStream;
  awaitingUserMedia : nat;     (* getUserMedia promises pending *)
  awaitingBlob : nat;          (* canvas.toBlob callbacks pending *)
  stopped : list Track         (* every track.stop() call, oldest first *)
}.

Definition initialWorld : World :=
  {| app := App.initialWorld; cameraOpen := false; cameraError := None;
     cameraStream := None; awaitingUserMedia := 0; awaitingBlob := 0;
     stopped := [] |}.

Definition onApp (f : App.World -> App.World) (w : World) : World :=
  {| app := f (app w); cameraOpen := cameraOpen w;
     cameraError := cameraError w; cameraStream := cameraStream w;
     awaitingUserMedia := awaitingUserMedia w;
     awaitingBlob := awaitingBlob w; stopped := stopped w |}.

Definition setCameraOpen (v : bool) (w : World) : World :=
  {| app := app w; cameraOpen := v;
     cameraError := cameraError w; cameraStream := cameraStream w;
     awaitingUserMedia := awaitingUserMedia w;
     awaitingBlob := awaitingBlob w; stopped := stopped w |}.

Definition setCameraError (v : Js.prop) (w : World) : World :=
  {| app := app w; cameraOpen := cameraOpen w;
     cameraError := v; cameraStream := cameraStream w;
     awaitingUserMedia := awaitingUserMedia w;
     awaitingBlob := awaitingBlob w; stopped := stopped w |}.

Definition setCameraStream (v : option MediaStream) (w : World) : World :=
  {| app := app w; cameraOpen := cameraOpen w;
     cameraError := cameraError w; cameraStream := v;
     awaitingUserMedia := awaitingUserMedia w;
     awaitingBlob := awaitingBlob w; stopped := stopped w |}.

(** [navigator.mediaDevices.getUserMedia({ video: true })] is called. *)
Definition getUserMedia (w : World) : World :=
  {| app := app w; cameraOpen := cameraOpen w;
     cameraError := cameraError w; cameraStream := cameraStream w;
     awaitingUserMedia := S (awaitingUserMedia w);
     awaitingBlob := awaitingBlob w; stopped := stopped w |}.

Definition userMediaSettled (w : World) : World :=
  {| app := app w; cameraOpen := cameraOpen w;
     cameraError := cameraError w; cameraStream := cameraStream w;
     awaitingUserMedia := pred (awaitingUserMedia w);
     awaitingBlob := awaitingBlob w; stopped := stopped w |}.

(** [canvas.toBlob(callback, 'image/jpeg')] is called. *)
Definition toBlob (w : World) : World :=
  {| app := app w; cameraOpen := cameraOpen w;
     cameraError := cameraError w; cameraStream := cameraStream w;
     awaitingUserMedia := awaitingUserMedia w;
     awaitingBlob := S (awaitingBlob w); stopped := stopped w |}.

Definition blobDelivered (w : World) : World :=
  {| app := app w; cameraOpen := cameraOpen w;
     cameraError := cameraError w; cameraStream := cameraStream w;
     awaitingUserMedia := awaitingUserMedia w;
     awaitingBlob := pred (awaitingBlob w); stopped := stopped w |}.

(** [stream.getTracks().forEach((track) => track.stop())]. *)
Definition stopTracks (ms : MediaStream) (w : World) : World :=
  {| app := app w; cameraOpen := cameraOpen w;
     cameraError := cameraError w; cameraStream := cameraStream w;
     awaitingUserMedia := awaitingUserMedia w;
     awaitingBlob := awaitingBlob w;
     stopped := (stopped w ++ getTracks ms)%list |}.

Definition cameraErrorText : string :=
  "Unable to access camera. Please allow permissions.".

(** [startCamera] up to its [await]. *)
Definition startCamera (w : World) : World := getUserMedia w.

(** [startCamera] from its [await] on. *)
Definition startCamera_resume (o : Outcome MediaStream) (w : World) : World :=
  match o with
  | Fulfilled stream =>
      w |> setCameraStream (Some stream)
        |> setCameraOpen true
        |> setCameraError None
  | Rejected err =>
      w |> onApp (App.console_error err)
        |> setCameraError (Some cameraErrorText)
  end.

(** The [<video>] and [<canvas>] carrying [videoRef] and [canvasRef] are
    rendered under [cameraOpen && (cameraError ? ... : ...)]: the refs are
    set exactly when the camera panel shows the stream. *)
Definition refsMounted (w : World) : bool :=
  cameraOpen w && negb (Js.truthy (cameraError w)).

(** [capturePhoto], the callback given to [toBlob] apart.  Sizing the
    canvas and drawing the frame on it touch the canvas only. *)
Definition capturePhoto (w : World) : World :=
  if negb (refsMounted w) then w
  else
    let w1 := toBlob w in
    let w2 := match cameraStream w with
              | Some ms => stopTracks ms w1
              | None => w1
              end in
    w2 |> setCameraOpen false |> setCameraStream None.

(** The callback given to [toBlob], called with the encoded frame, a
    blob. *)
Definition capturePhoto_onBlob (blob : File) (w : World) : World :=
  let file := {| file_name := "captured_image.jpg";
                 file_type := "image/jpeg";
                 file_bytes := file_bytes blob |} in
  w |> onApp (fun a =>
         let a1 := a |> App.setSelectedFile (Some file) in
         let (url, a2) := App.createObjectURL blob a1 in
         a2 |> App.setPreviewUrl (Some url) |> App.clearResults).

(** The same callback called with [null], which is what [toBlob] passes
    when the frame cannot be encoded (a canvas without width or height,
    as before the video has its first frame).  [new File([null], ...)]
    holds the text [null]; [URL.createObjectURL(null)] then throws, and
    the two statements after it do not run. *)
Definition capturePhoto_onNull (w : World) : World :=
  let file := {| file_name := "captured_image.jpg";
                 file_type := "image/jpeg";
                 file_bytes := "null" |} in
  w |> onApp (App.setSelectedFile (Some file)).

Definition handleFileChange (file : option File) (w : World) : World :=
  onApp (App.handleFileChange file) w.

Definition clearResults (w : World) : World := onApp App.clearResults w.

Definition clearSelection (w : World) : World := onApp App.clearSelection w.

(** What can happen to the camera revision, as far as the camera and the
    selection go. *)
Inductive Event :=
| ChangeFile (file : option File)
| ClickClear
| ClickOpenCamera
| ClickCapture
| SettleUserMedia (o : Outcome MediaStream)
| BlobReady (blob : File)
| BlobFailed.

Definition dispatch (e : Event) (w : World) : World :=
  match e with
  | ChangeFile file =>
      w |> onApp (App.setFileInput file) |> handleFileChange file
  | ClickClear =>
      match App.previewUrl (App.cells (app w)) with
      | Some _ => clearSelection w
      | None => w
      end
  | ClickOpenCamera => startCamera w
  | ClickCapture =>
      (* the button sits next to the [<video>] *)
      if refsMounted w then capturePhoto w else w
  | SettleUserMedia o =>
      match awaitingUserMedia w with
      | O => w
      | S _ => w |> userMediaSettled |> startCamera_resume o
      end
  | BlobReady blob =>
      match awaitingBlob w with
      | O => w
      | S _ => w |> blobDelivered |> capturePhoto_onBlob blob
      end
  | BlobFailed =>
      match awaitingBlob w with
      | O => w
      | S _ => w |> blobDelivered |> capturePhoto_onNull
      end
  end.

Definition run (es : list Event) (w : World) : World :=
  fold_left (fun w e => dispatch e w) es w.

(** How often a track has been stopped. *)
Definition timesStopped (t : Track) (w : World) : nat :=
  count_occ Nat.eq_dec (stopped w) t.

(** A stream none of whose tracks has been stopped. *)
Definition live (ms : MediaStream) (w : World) : Prop :=
  forall t, In t (getTracks ms) -> timesStopped t w = 0.

(** Every track of the stream has been stopped exactly once. *)
Definition releasedOnce (ms : MediaStream) (w : World) : Prop :=
  forall t, In t (getTracks ms) -> timesStopped t w = 1.

End CameraApp.

(** ** Sample data *)

Module Sample.
Import Api.

Definition imageA : File :=
  {| file_name := "a.jpg"; file_type := "image/jpeg"; file_bytes := "A" |}.

Definition imageB : File :=
  {| file_name := "b.png"; file_type := "image/png"; file_bytes := "B" |}.

Definition neem : PlantRecord :=
  {| name := Some "Neem"; scientific_name := Some "Azadirachta indica";
     common_name := Some "Neem"; local_name := Some "Nimba";
     family_name := Some "Meliaceae";
     medicinal_uses := Some "Antiseptic"; error := None |}.

Definition unknown : PlantRecord :=
  {| name := Some "Unknown"; scientific_name := None; common_name := None;
     local_name := None; family_name := None; medicinal_uses := None;
     error := Some "no match" |}.

Definition detected (records : list PlantRecord) : DetectionData :=
  {| annotated_image := Some "/9j/4AAQ"; plant_data := Some records |}.

Definition webcam : CameraApp.MediaStream :=
  {| CameraApp.getTracks := [7] |}.

(** A response whose first record failed and whose second did not. *)
Definition secondRecordGood : DetectionData := detected [unknown; neem].

(** Select image A, ask for detection, clear the selection. *)
Definition clearedWhileDetecting : App.World :=
  App.run [App.ChangeFile (Some imageA); App.ClickDetect; App.ClickClear]
          App.initialWorld.

(** Select image A and ask for detection. *)
Definition detecting : App.World :=
  App.run [App.ChangeFile (Some imageA); App.ClickDetect] App.initialWorld.

(** Detect Neem in image A, then detect again on the same image and get
    a record flagged with an error. *)
Definition redetected : App.World :=
  App.run [App.ChangeFile (Some imageA);
           App.ClickDetect;
           App.SettlePredict 0 (Fulfilled (detected [neem]));
           App.ClickDetect;
           App.SettlePredict 1 (Fulfilled (detected [unknown]))]
          App.initialWorld.

(** The camera is opened and granted, then the selection is cleared. *)
Definition clearedWhileOpen : CameraApp.World :=
  CameraApp.run [CameraApp.ChangeFile (Some imageA);
                 CameraApp.ClickOpenCamera;
                 CameraApp.SettleUserMedia (Fulfilled webcam);
                 CameraApp.ClickClear]
                CameraApp.initialWorld.

(** The camera is opened and granted. *)
Definition cameraShowing : CameraApp.World :=
  CameraApp.run [CameraApp.ClickOpenCamera;
                 CameraApp.SettleUserMedia (Fulfilled webcam)]
                CameraApp.initialWorld.

(** The chat tab with three spaces typed into the input. *)
Definition blankInput : App.World :=
  App.run [App.ClickTab App.chat; App.TypeChat "   "] App.initialWorld.

End Sample.

(** A string made of white space only (or empty). *)
Fixpoint isBlank (s : string) : bool :=
  match s with
  | EmptyString => true
  | String c r => Js.isWhiteSpace c && isBlank r
  end.

(** The streams handed out by [getUserMedia] during [es] share no track
    with [ms]. *)
Definition grantsApartFrom (ms : CameraApp.MediaStream)
    (es : list CameraApp.Event) : Prop :=
  forall ms', In (CameraApp.SettleUserMedia (Api.Fulfilled ms')) es ->
  forall t, In t (CameraApp.getTracks ms) ->
  ~ In t (CameraApp.getTracks ms').

(** No stream held by the component shares a track with [ms]. *)
Definition holdsApartFrom (ms : CameraApp.MediaStream)
    (w : CameraApp.World) : Prop :=
  forall ms', CameraApp.cameraStream w = Some ms' ->
  forall t, In t (CameraApp.getTracks ms) ->
  ~ In t (CameraApp.getTracks ms').

(** ** What is rendered

    The JSX the component returns, as far as it depends on the cells:
    which blocks are shown and what they carry. *)

Module AppView.
Import Api App.

(** Under the name of a plant: the error line, or the list of details. *)
Inductive CardBody :=
| ErrorLine (e : string)
| Details (scientific common local family uses : Js.prop).

Record Card := mkCard {
  card_name : Js.prop;
  card_body : CardBody
}.

(** One element of [detectionResult.plant_data.map(...)]. *)
Definition plantCard (p : PlantRecord) : Card :=
  {| card_name := name p;
     card_body :=
       match Api.error p with
       | Some e =>
           if e =? "" then
             Details (scientific_name p) (common_name p) (local_name p)
                     (family_name p) (medicinal_uses p)
           else ErrorLine e
       | None =>
           Details (scientific_name p) (common_name p) (local_name p)
                   (family_name p) (medicinal_uses p)
       end |}.

(** The detection tab: three blocks, each under its own condition. *)
Record DetectPane := mkDetectPane {
  placeholder : bool;                        (* "Your results will appear here" *)
  skeleton : bool;                           (* <SkeletonLoader /> *)
  results : option (Js.prop * list Card)     (* annotated image and cards *)
}.




(** [{error && (...)}] *)
Definition renderBanner (s : State) : option string :=
  match error s with
  | Some e => if e =? "" then None else Some e
  | None => None
  end.

(** The detection tab.  [detectionResult.plant_data.map] throws when the
    stored result has no [plant_data]: there is no pane then.  On an
    array of [PlantRecord]s the callback of [map] does not throw. *)
Definition renderDetectTab (s : State) : option DetectPane :=
  match detectionResult s with
  | None =>
      Some {| placeholder := negb (isLoading s) && negb (Js.truthy (error s));
              skeleton := isLoading s;
              results := None |}
  | Some d =>
      match plant_data d with
      | Some ps =>
          Some {| placeholder := false;
                  skeleton := isLoading s;
                  results := Some (annotated_image d, map plantCard ps) |}
      | None => None
      end
  end.



(** How many of the four things the detection tab can show are shown:
    the placeholder, the skeleton, the results, the alert. *)
Definition shown (s : State) (d : DetectPane) : nat :=
  (if placeholder d then 1 else 0)
  + (if skeleton d then 1 else 0)
  + (match results d with Some _ => 1 | None => 0 end)
  + (match renderBanner s with Some _ => 1 | None => 0 end).

End AppView.

(** The camera panel of the camera revision:
    [cameraOpen && (cameraError ? <p>...</p> : <video/> ... )]. *)
Inductive CameraPanel :=
| Hidden
| ShowsError (e : string)
| ShowsVideo.

Definition cameraPanel (w : CameraApp.World) : CameraPanel :=
  if CameraApp.cameraOpen w then
    match CameraApp.cameraError w with
    | Some e => if e =? "" then ShowsVideo else ShowsError e
    | None => ShowsVideo
    end
  else Hidden.

(** ** Notions used by the properties *)

(** Chat requests in flight. *)
Definition chatsInFlight (w : App.World) : nat :=
  List.length (filter (fun p => Api.isChat (snd p)) (App.inflight w)).

(** The typing bubble is on exactly while one chat request is in flight. *)
Definition oneChat (w : App.World) : Prop :=
  chatsInFlight w = if App.isChatLoading (App.cells w) then 1 else 0.

(** Every request in flight was numbered before [nextRequest]. *)
Definition idsBelow (w : App.World) : Prop :=
  Forall (fun p => fst p < App.nextRequest w) (App.inflight w).

(** A chat request that names a plant and carries text that does not trim
    to nothing. *)
Definition wellFormed (r : Api.Request) : Prop :=
  match r with
  | Api.Predict _ => True
  | Api.Chat plant message => plant <> "" /\ Js.trim message <> ""
  end.

(** At most one of: detecting, failed, detected. *)
Definition oneStatus (s : App.State) : Prop :=
  (App.isLoading s = true ->
     App.error s = None /\ App.detectionResult s = None)
  /\ (App.error s <> None -> App.detectionResult s = None)
  /\ (App.error s = None \/ App.error s = Some App.detectionErrorText).

(** The preview shows the selected file, or there is neither. *)
Definition previewOfSelection (w : App.World) : Prop :=
  match App.selectedFile (App.cells w), App.previewUrl (App.cells w) with
  | None, None => True
  | Some f, Some u => Api.url_blob u = f /\ Api.url_serial u < App.minted w
  | _, _ => False
  end.


(** The tracks of the stream the component holds. *)
Definition heldTracks (w : CameraApp.World) : list CameraApp.Track :=
  match CameraApp.cameraStream w with
  | Some ms => CameraApp.getTracks ms
  | None => []
  end.

(** The tracks of the streams [getUserMedia] hands out during [es]. *)
Fixpoint grantedTracks (es : list CameraApp.Event) : list CameraApp.Track :=
  match es with
  | [] => []
  | CameraApp.SettleUserMedia (Api.Fulfilled ms) :: rest =>
      (CameraApp.getTracks ms ++ grantedTracks rest)%list
  | _ :: rest => grantedTracks rest
  end.

(** No request for the camera is granted during [es]. *)
Definition neverGranted (es : list CameraApp.Event) : Prop :=
  forall ms, ~ In (CameraApp.SettleUserMedia (Api.Fulfilled ms)) es.

(** The preview of the camera revision shows the bytes of the selected
    file, or there is neither. *)
Definition previewOfCapture (w : CameraApp.World) : Prop :=
  match App.selectedFile (App.cells (CameraApp.app w)),
        App.previewUrl (App.cells (CameraApp.app w)) with
  | None, None => True
  | Some f, Some u => Api.file_bytes (Api.url_blob u) = Api.file_bytes f
  | _, _ => False
  end.

(** * Properties *)

Import Api App.

(** ** Trimming *)

Lemma trimStart_blank (s : string) :
  Js.trimStart s = "" <-> isBlank s = true.
Proof.
  induction s as [|c r IH]; simpl.
  - split; reflexivity.
  - destruct (Js.isWhiteSpace c); simpl.
    + exact IH.
    + split; discriminate.
Qed.

Lemma isBlank_app (a b : string) :
  isBlank (a ++ b) = isBlank a && isBlank b.
Proof.
  induction a as [|c r IH]; simpl.
  - reflexivity.
  - rewrite IH. now rewrite andb_assoc.
Qed.

Lemma isBlank_rev (s : string) : isBlank (Js.rev s) = isBlank s.
Proof.
  induction s as [|c r IH]; simpl.
  - reflexivity.
  - rewrite isBlank_app, IH. simpl.
    rewrite andb_true_r. apply andb_comm.
Qed.

Lemma rev_empty (s : string) : Js.rev s = "" -> s = "".
Proof.
  destruct s as [|c r]; simpl.
  - reflexivity.
  - destruct (Js.rev r); discriminate.
Qed.

Lemma trimStart_head (s : string) :
  isBlank (Js.trimStart s) = true -> Js.trimStart s = "".
Proof.
  induction s as [|c r IH]; simpl.
  - reflexivity.
  - destruct (Js.isWhiteSpace c) eqn:E.
    + exact IH.
    + simpl. rewrite E. discriminate.
Qed.

(** [trim] returns the empty string exactly on white-space-only input. *)
Lemma trim_blank (s : string) : Js.trim s = "" <-> isBlank s = true.
Proof.
  unfold Js.trim, Js.trimEnd. split.
  - intros H. apply rev_empty in H.
    apply trimStart_blank in H. rewrite isBlank_rev in H.
    apply trimStart_head in H. now apply trimStart_blank.
  - intros H. apply trimStart_blank in H. rewrite H. reflexivity.
Qed.

(** ** Selecting a file *)

(** C9: a change event that carries no file leaves every cell, and the
    rest of the world, as it was. *)
Theorem handleFileChange_without_file (w : World) :
  handleFileChange None w = w
  /\ cells (dispatch (ChangeFile None) w) = cells w.
Proof.
  split.
  - reflexivity.
  - destruct w as [s ? ? ? ? ? ?]. reflexivity.
Qed.

(** ** Chat *)

(** C7: with a chat input that trims to the empty string, submitting posts
    no request and leaves the transcript, and everything else, untouched. *)
Theorem handleSubmitChat_blank (w : World) :
  Js.trim (chatInput (cells w)) = "" ->
  issued (handleSubmitChat w) = issued w
  /\ inflight (handleSubmitChat w) = inflight w
  /\ chatMessages (cells (handleSubmitChat w)) = chatMessages (cells w)
  /\ handleSubmitChat w = w.
Proof.
  intros H. unfold handleSubmitChat. rewrite H. simpl. auto.
Qed.

Lemma handleSubmitChat_blank_witness :
  Js.trim (chatInput (cells Sample.blankInput)) = ""
  /\ issued (handleSubmitChat Sample.blankInput) = issued Sample.blankInput
  /\ chatMessages (cells (handleSubmitChat Sample.blankInput))
     = chatMessages (cells Sample.blankInput).
Proof.
  split; [reflexivity|].
  destruct (handleSubmitChat_blank Sample.blankInput eq_refl)
    as (Hi & _ & Hm & _).
  split; [exact Hi | exact Hm].
Defined.

(** White-space-only input in the claim's own words. *)
Lemma handleSubmitChat_whitespace (w : World) :
  isBlank (chatInput (cells w)) = true -> handleSubmitChat w = w.
Proof.
  intros H. apply trim_blank in H.
  unfold handleSubmitChat. rewrite H. reflexivity.
Qed.

(** C10: a fulfilled chat request whose body has no (or an empty)
    [response] but an [error] string appends a bot message carrying that
    error string, and the pending flag is cleared. *)
Theorem handleSubmitChat_resume_error_body (w : World) (data : ChatData)
    (e : string) :
  Js.truthy (response data) = false ->
  chat_error data = Some e ->
  chatMessages (cells (handleSubmitChat_resume (Fulfilled data) w))
    = (chatMessages (cells w) ++ [ {| sender := bot; text := Some e |} ])%list
  /\ isChatLoading (cells (handleSubmitChat_resume (Fulfilled data) w)) = false.
Proof.
  intros Hr He. unfold handleSubmitChat_resume, Js.or. rewrite Hr, He.
  split; reflexivity.
Qed.

Lemma handleSubmitChat_resume_error_body_witness :
  chatMessages (cells (handleSubmitChat_resume
     (Fulfilled {| response := None; chat_error := Some "quota exceeded" |})
     initialWorld))
  = [ {| sender := bot; text := Some "quota exceeded" |} ]
  /\ isChatLoading (cells (handleSubmitChat_resume
     (Fulfilled {| response := None; chat_error := Some "quota exceeded" |})
     initialWorld)) = false.
Proof.
  exact (handleSubmitChat_resume_error_body initialWorld
           {| response := None; chat_error := Some "quota exceeded" |}
           "quota exceeded" eq_refl eq_refl).
Defined.

(** C6 as stated fails: the chat service answers with the empty string,
    a body of the shape [{ response: string }]; the bot message that is
    appended carries no text at all, not the text returned. *)
Lemma empty_reply_has_no_text :
  chatMessages (cells
    (run [SubmitChat;
          SettleChat 0 (Fulfilled {| response := Some ""; chat_error := None |})]
       (run [ClickTab chat; TypeChat "Is it edible?"] initialWorld)))
  = [ {| sender := user; text := Some "Is it edible?" |};
      {| sender := bot; text := None |} ]
  /\ {| sender := bot; text := None |}
     <> {| sender := bot; text := Some "" |}.
Proof. split; [reflexivity | discriminate]. Qed.

(** C6, as the code has it: a submit with text that does not trim to the
    empty string, while no chat response is awaited, appends the user's
    message at once, marks the chat as loading and posts the bound plant
    name with the text; when the request settles, in whatever world [w']
    that happens, a bot message is appended and the loading flag is
    cleared.  On success the text of that message is
    [response || error]: the returned text when it is a non-empty
    string, and nothing when the returned text is empty and the body has
    no [error]; on failure it is the retry notice. *)
Theorem handleSubmitChat_lifecycle (w : World) :
  Js.trim (chatInput (cells w)) <> "" ->
  isChatLoading (cells w) = false ->
  let input := chatInput (cells w) in
  let w1 := handleSubmitChat w in
  (* before the request settles *)
  chatMessages (cells w1)
    = (chatMessages (cells w) ++ [ {| sender := user; text := Some input |} ])%list
  /\ isChatLoading (cells w1) = true
  /\ issued w1 = (issued w ++ [Chat (chatPlantName (cells w)) input])%list
  /\ inflight w1
     = (inflight w ++ [(nextRequest w, Chat (chatPlantName (cells w)) input)])%list
  (* on success *)
  /\ (forall w' data,
        let w2 := handleSubmitChat_resume (Fulfilled data) w' in
        chatMessages (cells w2)
          = (chatMessages (cells w')
             ++ [ {| sender := bot;
                     text := Js.or (response data) (chat_error data) |} ])%list
        /\ (forall reply, response data = Some reply -> reply <> "" ->
              chatMessages (cells w2)
              = (chatMessages (cells w')
                 ++ [ {| sender := bot; text := Some reply |} ])%list)
        /\ (response data = Some "" -> chat_error data = None ->
              chatMessages (cells w2)
              = (chatMessages (cells w')
                 ++ [ {| sender := bot; text := None |} ])%list)
        /\ isChatLoading (cells w2) = false
        /\ issued w2 = issued w')
  (* on failure *)
  /\ (forall w' err,
        let w2 := handleSubmitChat_resume (Rejected err) w' in
        chatMessages (cells w2)
          = (chatMessages (cells w')
             ++ [ {| sender := bot; text := Some retryNotice |} ])%list
        /\ isChatLoading (cells w2) = false
        /\ issued w2 = issued w').
Proof.
  intros Ht _ input w1. subst w1 input. unfold handleSubmitChat.
  destruct (Js.trim (chatInput (cells w))) eqn:E; [congruence|]. simpl.
  repeat split.
  - intros reply Hr Hne. simpl. unfold Js.or, Js.truthy. rewrite Hr.
    apply String.eqb_neq in Hne. now rewrite Hne.
  - intros Hr He. simpl. rewrite Hr, He. reflexivity.
Qed.

Lemma handleSubmitChat_lifecycle_witness :
  chatMessages (cells (handleSubmitChat
     (setChatInput "Is it edible?" initialWorld)))
  = [ {| sender := user; text := Some "Is it edible?" |} ]
  /\ issued (handleSubmitChat (setChatInput "Is it edible?" initialWorld))
     = [Chat "your plant" "Is it edible?"].
Proof.
  assert (Ht : Js.trim (chatInput (cells
                (setChatInput "Is it edible?" initialWorld))) <> "")
    by (vm_compute; discriminate).
  destruct (handleSubmitChat_lifecycle
              (setChatInput "Is it edible?" initialWorld) Ht eq_refl)
    as (Hm & _ & Hi & _).
  split; [exact Hm | exact Hi].
Defined.

(** ** Replacing the image *)

(** What a change event with a file does, cell by cell. *)
Lemma handleFileChange_with_file (f : File) (w : World) :
  cells (handleFileChange (Some f) w)
  = {| activeTab := activeTab (cells w);
       selectedFile := Some f;
       previewUrl := Some {| url_serial := minted w; url_blob := f |};
       isLoading := isLoading (cells w);
       error := None;
       detectionResult := None;
       chatPlantName := defaultPlantName;
       chatInput := chatInput (cells w);
       chatMessages := [];
       isChatLoading := isChatLoading (cells w);
       isDark := isDark (cells w) |}
  /\ issued (handleFileChange (Some f) w) = issued w
  /\ inflight (handleFileChange (Some f) w) = inflight w
  /\ minted (handleFileChange (Some f) w) = S (minted w).
Proof. repeat split. Qed.

Lemma selectAll_frame (fs : list File) (w : World) :
  activeTab (cells (selectAll fs w)) = activeTab (cells w)
  /\ isLoading (cells (selectAll fs w)) = isLoading (cells w)
  /\ chatInput (cells (selectAll fs w)) = chatInput (cells w)
  /\ isChatLoading (cells (selectAll fs w)) = isChatLoading (cells w)
  /\ isDark (cells (selectAll fs w)) = isDark (cells w)
  /\ issued (selectAll fs w) = issued w
  /\ inflight (selectAll fs w) = inflight w
  /\ minted (selectAll fs w) = List.length fs + minted w.
Proof.
  revert w. induction fs as [|f fs IH]; intros w.
  - repeat split.
  - change (selectAll (f :: fs) w)
      with (selectAll fs (handleFileChange (Some f) w)).
    destruct (IH (handleFileChange (Some f) w))
      as (H1 & H2 & H3 & H4 & H5 & H6 & H7 & H8).
    rewrite H1, H2, H3, H4, H5, H6, H7, H8. simpl.
    repeat split. lia.
Qed.

(** C4, as the code has it: after any sequence of file selections the
    last file is the selected one and the preview shows it, detection
    result, error and chat session are back at their defaults, and no
    request was posted; the two loading flags are left as they were. *)
Theorem selectAll_keeps_last (fs : list File) (f : File) (w : World) :
  cells (selectAll (fs ++ [f]) w)
  = {| activeTab := activeTab (cells w);
       selectedFile := Some f;
       previewUrl :=
         Some {| url_serial := List.length fs + minted w; url_blob := f |};
       isLoading := isLoading (cells w);
       error := None;
       detectionResult := None;
       chatPlantName := defaultPlantName;
       chatInput := chatInput (cells w);
       chatMessages := [];
       isChatLoading := isChatLoading (cells w);
       isDark := isDark (cells w) |}
  /\ issued (selectAll (fs ++ [f]) w) = issued w
  /\ inflight (selectAll (fs ++ [f]) w) = inflight w.
Proof.
  unfold selectAll. rewrite fold_left_app. cbn [fold_left].
  fold (selectAll fs w).
  destruct (handleFileChange_with_file f (selectAll fs w))
    as (Hc & Hi & Hf & _).
  destruct (selectAll_frame fs w)
    as (H1 & H2 & H3 & H4 & H5 & H6 & H7 & H8).
  rewrite Hc, Hi, Hf, H1, H2, H3, H4, H5, H6, H7, H8.
  repeat split.
Qed.

(** C4, the clause about loading indicators: a detection is in flight for
    image A and its spinner shows; selecting image B leaves the spinner
    on. *)
Lemma handleFileChange_keeps_isLoading :
  isLoading (cells (run [ChangeFile (Some Sample.imageA); ClickDetect]
                        initialWorld)) = true
  /\ isLoading (cells (run [ChangeFile (Some Sample.imageA); ClickDetect;
                            ChangeFile (Some Sample.imageB)]
                           initialWorld)) = true
  /\ inflight (run [ChangeFile (Some Sample.imageA); ClickDetect;
                    ChangeFile (Some Sample.imageB)] initialWorld)
     = [(0, Predict Sample.imageA)].
Proof. repeat split. Qed.

(** ** A detection that succeeds *)

Lemma identified_first (data : DetectionData) (p : PlantRecord) :
  identified data = Some p <->
  exists rest, plant_data data = Some (p :: rest)
               /\ Js.truthy (Api.error p) = false.
Proof.
  unfold identified. split.
  - destruct (plant_data data) as [[|q rest]|]; try discriminate.
    destruct (Js.truthy (Api.error q)) eqn:E; try discriminate.
    intros H. injection H as <-. now exists rest.
  - intros (rest & -> & ->). reflexivity.
Qed.

(** What the rest of the [try] block and [finally] do to the cells of the
    world the response arrives in. *)
Lemma resume_fulfilled_cells (w : World) (data : DetectionData) :
  cells (handleSubmitDetection_resume (Fulfilled data) w)
  = {| activeTab := activeTab (cells w);
       selectedFile := selectedFile (cells w);
       previewUrl := previewUrl (cells w);
       isLoading := false;
       error := error (cells w);
       detectionResult := Some data;
       chatPlantName :=
         match identified data with
         | Some p => Js.or_lit (name p) defaultPlantName
         | None => chatPlantName (cells w)
         end;
       chatInput := chatInput (cells w);
       chatMessages :=
         match identified data with
         | Some p =>
             [ {| sender := bot;
                  text := Some (greeting (Js.or_lit (name p) defaultPlantName)) |} ]
         | None => [ {| sender := bot; text := Some notDetectedText |} ]
         end;
       isChatLoading := isChatLoading (cells w);
       isDark := isDark (cells w) |}.
Proof.
  unfold handleSubmitDetection_resume.
  destruct (identified data); reflexivity.
Qed.

Lemma or_lit_named (n d : string) : n <> "" -> Js.or_lit (Some n) d = n.
Proof.
  intros H. unfold Js.or_lit. apply String.eqb_neq in H. now rewrite H.
Qed.

(** C3, as the code has it: a fulfilled detection stores the response;
    when [plant_data] is non-empty and its first record carries no error,
    the chat is bound to that record's name (to the placeholder when the
    name is missing or empty) and the transcript is exactly one bot
    greeting with the bound name in it; otherwise the transcript is
    exactly the could-not-detect message, and a bound name that was the
    placeholder still is. *)
Theorem handleSubmitDetection_resume_success (w : World)
    (data : DetectionData) :
  let w' := handleSubmitDetection_resume (Fulfilled data) w in
  detectionResult (cells w') = Some data
  /\ match identified data with
     | Some p =>
         chatPlantName (cells w') = Js.or_lit (name p) defaultPlantName
         /\ (forall n, name p = Some n -> n <> "" ->
               chatPlantName (cells w') = n)
         /\ chatMessages (cells w')
            = [ {| sender := bot;
                   text := Some ("I've identified " ++ chatPlantName (cells w')
                     ++ ". Feel free to ask me any questions about it!") |} ]
     | None =>
         chatMessages (cells w')
           = [ {| sender := bot; text := Some notDetectedText |} ]
         /\ (chatPlantName (cells w) = defaultPlantName ->
             chatPlantName (cells w') = defaultPlantName)
     end.
Proof.
  intros w'. subst w'. rewrite resume_fulfilled_cells.
  destruct (identified data) as [p|]; simpl.
  - repeat split. intros n Hn Hne. rewrite Hn. now apply or_lit_named.
  - repeat split. auto.
Qed.

(** The two scenarios of the specification. *)
Example detection_of_neem :
  chatPlantName (cells (handleSubmitDetection_resume
     (Fulfilled (Sample.detected [Sample.neem])) Sample.detecting)) = "Neem"
  /\ chatMessages (cells (handleSubmitDetection_resume
     (Fulfilled (Sample.detected [Sample.neem])) Sample.detecting))
     = [ {| sender := bot;
            text := Some "I've identified Neem. Feel free to ask me any questions about it!" |} ].
Proof. split; reflexivity. Qed.

Example detection_of_unknown :
  chatPlantName (cells (handleSubmitDetection_resume
     (Fulfilled (Sample.detected [Sample.unknown])) Sample.detecting))
  = "your plant"
  /\ chatMessages (cells (handleSubmitDetection_resume
     (Fulfilled (Sample.detected [Sample.unknown])) Sample.detecting))
     = [ {| sender := bot; text := Some notDetectedText |} ].
Proof. split; reflexivity. Qed.

(** C3 as stated fails: the response holds a record without an error
    flag, Neem, behind one with a flag; the chat is not bound to it and
    the transcript says no plant was detected. *)
Lemma only_first_record_binds :
  In Sample.neem [Sample.unknown; Sample.neem]
  /\ Api.error Sample.neem = None
  /\ plant_data Sample.secondRecordGood
     = Some [Sample.unknown; Sample.neem]
  /\ chatPlantName (cells (handleSubmitDetection_resume
       (Fulfilled Sample.secondRecordGood) Sample.detecting)) = "your plant"
  /\ chatMessages (cells (handleSubmitDetection_resume
       (Fulfilled Sample.secondRecordGood) Sample.detecting))
     = [ {| sender := bot; text := Some notDetectedText |} ].
Proof. repeat split. simpl. auto. Qed.

(** ** Responses that arrive late *)

(** C1 as stated fails: detection is requested for image A, the selection
    is cleared, then the request is fulfilled.  The final cells are not
    those left by the clear: they hold the detection result, the greeting
    and the detected name. *)
Lemma late_detection_is_applied :
  detectionResult (cells Sample.clearedWhileDetecting) = None
  /\ chatMessages (cells Sample.clearedWhileDetecting) = []
  /\ chatPlantName (cells Sample.clearedWhileDetecting) = "your plant"
  /\ inflight Sample.clearedWhileDetecting = [(0, Predict Sample.imageA)]
  /\ detectionResult (cells (dispatch
       (SettlePredict 0 (Fulfilled (Sample.detected [Sample.neem])))
       Sample.clearedWhileDetecting))
     = Some (Sample.detected [Sample.neem])
  /\ chatPlantName (cells (dispatch
       (SettlePredict 0 (Fulfilled (Sample.detected [Sample.neem])))
       Sample.clearedWhileDetecting)) = "Neem"
  /\ cells (dispatch
       (SettlePredict 0 (Fulfilled (Sample.detected [Sample.neem])))
       Sample.clearedWhileDetecting)
     <> cells Sample.clearedWhileDetecting.
Proof. repeat split. discriminate. Qed.

(** C1, as the code has it: there is no generation counter, and a
    response is folded into whatever state it arrives in.  When detection
    is requested, the selection cleared and the request then fulfilled,
    the request is still in flight after the clear, and the final cells
    are those left by the clear with the response applied: the result is
    stored, the transcript seeded and the name bound as for any fulfilled
    detection, the loading flag is off, and file and preview stay
    cleared.  The same holds for a chat reply that arrives after a
    clear: it is appended to the emptied transcript. *)
Theorem response_applied_after_clear (w : World) (f : File)
    (data : DetectionData) :
  selectedFile (cells w) = Some f ->
  let w1 := handleSubmitDetection w in
  let w2 := clearSelection w1 in
  let w3 := handleSubmitDetection_resume (Fulfilled data) w2 in
  inflight w2 = (inflight w ++ [(nextRequest w, Predict f)])%list
  /\ detectionResult (cells w2) = None
  /\ chatMessages (cells w2) = []
  /\ chatPlantName (cells w2) = defaultPlantName
  /\ detectionResult (cells w3) = Some data
  /\ chatMessages (cells w3)
     = match identified data with
       | Some p =>
           [ {| sender := bot;
                text := Some (greeting (Js.or_lit (name p) defaultPlantName)) |} ]
       | None => [ {| sender := bot; text := Some notDetectedText |} ]
       end
  /\ chatPlantName (cells w3)
     = match identified data with
       | Some p => Js.or_lit (name p) defaultPlantName
       | None => defaultPlantName
       end
  /\ isLoading (cells w3) = false
  /\ selectedFile (cells w3) = None
  /\ previewUrl (cells w3) = None
  /\ cells w3 <> cells w2
  /\ (forall reply : ChatData,
        chatMessages (cells (handleSubmitChat_resume (Fulfilled reply)
                               (clearSelection w)))
        = [ {| sender := bot;
               text := Js.or (response reply) (chat_error reply) |} ]).
Proof.
  intros Hf w1 w2 w3. subst w3. rewrite resume_fulfilled_cells.
  subst w2 w1. unfold handleSubmitDetection. rewrite Hf. simpl.
  repeat split.
  intros H. apply (f_equal detectionResult) in H. discriminate.
Qed.

Lemma response_applied_after_clear_witness :
  detectionResult (cells (handleSubmitDetection_resume
     (Fulfilled (Sample.detected [Sample.neem]))
     (clearSelection (handleSubmitDetection
        (handleFileChange (Some Sample.imageA) initialWorld)))))
  = Some (Sample.detected [Sample.neem]).
Proof.
  destruct (response_applied_after_clear
              (handleFileChange (Some Sample.imageA) initialWorld)
              Sample.imageA (Sample.detected [Sample.neem]) eq_refl)
    as (_ & _ & _ & _ & H & _).
  exact H.
Defined.

(** ** One detection at a time *)

Lemma take_filter (P : Request -> bool) (id : nat)
    (l rest : list (nat * Request)) (r : Request) :
  take id l = Some (r, rest) ->
  List.length (filter (fun p => P (snd p)) l)
  = (if P r then 1 else 0) + List.length (filter (fun p => P (snd p)) rest).
Proof.
  revert rest. induction l as [|[i q] l IH]; intros rest H; simpl in H.
  - discriminate.
  - destruct (i =? id)%nat.
    + injection H as <- <-. simpl. destruct (P q); reflexivity.
    + destruct (take id l) as [[r' rest']|]; try discriminate.
      injection H as <- <-. specialize (IH rest' eq_refl).
      cbn [filter snd]. destruct (P q); cbn [List.length]; rewrite IH;
        destruct (P r'); lia.
Qed.

Lemma dispatch_oneDetection (e : Event) (w : World) :
  oneDetection w -> oneDetection (dispatch e w).
Proof.
  unfold oneDetection, detectionsInFlight. intros I.
  destruct e as [file| | |t| |v| |id o|id o]; simpl.
  - destruct file; exact I.
  - destruct (previewUrl (cells w)); exact I.
  - unfold detectDisabled, handleSubmitDetection.
    destruct (selectedFile (cells w)); [|exact I].
    destruct (isLoading (cells w)) eqn:L; [rewrite L; exact I|].
    simpl. rewrite filter_app, length_app, I. reflexivity.
  - exact I.
  - exact I.
  - destruct (activeTab (cells w)); exact I.
  - destruct (activeTab (cells w)); [exact I|].
    destruct (isChatLoading (cells w)); [exact I|].
    unfold handleSubmitChat.
    destruct (negb _); [exact I|].
    simpl. rewrite filter_app, length_app, I. simpl. lia.
  - destruct (take id (inflight w)) as [[[f|pn m] rest]|] eqn:T; try exact I.
    apply (take_filter isPredict) in T. simpl in T.
    assert (L : List.length
                  (filter (fun p => isPredict (snd p)) rest) = 0)
      by (destruct (isLoading (cells w)); lia).
    destruct o as [body|err]; simpl;
      [destruct (identified body)|]; exact L.
  - destruct (take id (inflight w)) as [[[f|pn m] rest]|] eqn:T; try exact I.
    apply (take_filter isPredict) in T. simpl in T.
    destruct o; simpl; lia.
Qed.

Lemma run_oneDetection (es : list Event) (w : World) :
  oneDetection w -> oneDetection (run es w).
Proof.
  revert w. induction es as [|e es IH]; intros w I.
  - exact I.
  - apply (IH (dispatch e w)). now apply dispatch_oneDetection.
Qed.

(** C2: the handler is called from one place, the Detect Plant button,
    which is disabled while [isLoading] is set.  In every state the
    interface can reach in which a detection is in flight, exactly one
    is, and a further click on the button is a no-op: it posts nothing
    and changes nothing. *)
Theorem detect_button_single_flight (es : list Event) :
  0 < detectionsInFlight (run es initialWorld) ->
  detectionsInFlight (run es initialWorld) = 1
  /\ isLoading (cells (run es initialWorld)) = true
  /\ dispatch ClickDetect (run es initialWorld) = run es initialWorld.
Proof.
  intros H.
  assert (I : oneDetection (run es initialWorld))
    by (apply run_oneDetection; reflexivity).
  unfold oneDetection in I.
  destruct (isLoading (cells (run es initialWorld))) eqn:L; [|lia].
  repeat split; [exact I|].
  simpl. unfold detectDisabled. rewrite L.
  destruct (selectedFile _); reflexivity.
Qed.

Lemma detect_button_single_flight_witness :
  dispatch ClickDetect
    (run [ChangeFile (Some Sample.imageA); ClickDetect] initialWorld)
  = run [ChangeFile (Some Sample.imageA); ClickDetect] initialWorld.
Proof.
  assert (H : 0 < detectionsInFlight
                (run [ChangeFile (Some Sample.imageA); ClickDetect]
                     initialWorld))
    by (vm_compute; lia).
  destruct (detect_button_single_flight
              [ChangeFile (Some Sample.imageA); ClickDetect] H)
    as (_ & _ & Hd).
  exact Hd.
Defined.

(** ** The bound plant name *)

(** C5 fails on this run: Neem is detected in image A, detection is run
    again on the same image and comes back with a record flagged with an
    error.  The most recent successful response names no plant, the
    transcript says none was detected, and the chat is still bound to the
    Neem of the superseded response. *)
Theorem bound_name_survives_redetection :
  detectionResult (cells Sample.redetected)
  = Some (Sample.detected [Sample.unknown])
  /\ identified (Sample.detected [Sample.unknown]) = None
  /\ chatMessages (cells Sample.redetected)
     = [ {| sender := bot; text := Some notDetectedText |} ]
  /\ chatPlantName (cells Sample.redetected) = "Neem"
  /\ issued (handleSubmitChat (setChatInput "Is it edible?" Sample.redetected))
     = [Predict Sample.imageA; Predict Sample.imageA;
        Chat "Neem" "Is it edible?"].
Proof. repeat split. Qed.

(** ** The camera stream *)

Lemma timesStopped_capturePhoto (t : CameraApp.Track) (w : CameraApp.World) :
  CameraApp.refsMounted w = true ->
  CameraApp.timesStopped t (CameraApp.capturePhoto w)
  = CameraApp.timesStopped t w
    + match CameraApp.cameraStream w with
      | Some ms => count_occ Nat.eq_dec (CameraApp.getTracks ms) t
      | None => 0
      end.
Proof.
  intros M. unfold CameraApp.capturePhoto, CameraApp.timesStopped.
  rewrite M. simpl.
  destruct (CameraApp.cameraStream w) as [ms|]; simpl.
  - apply count_occ_app.
  - lia.
Qed.

Lemma capturePhoto_drops_stream (w : CameraApp.World) :
  CameraApp.refsMounted w = true ->
  CameraApp.cameraStream (CameraApp.capturePhoto w) = None
  /\ CameraApp.cameraOpen (CameraApp.capturePhoto w) = false.
Proof.
  intros M. unfold CameraApp.capturePhoto. rewrite M. simpl.
  split; reflexivity.
Qed.

(** An event leaves the tracks of [ms] alone when the component holds no
    stream that shares one and is granted none. *)
Lemma dispatch_apart (ms : CameraApp.MediaStream) (e : CameraApp.Event)
    (w : CameraApp.World) :
  holdsApartFrom ms w ->
  grantsApartFrom ms [e] ->
  holdsApartFrom ms (CameraApp.dispatch e w)
  /\ forall t, In t (CameraApp.getTracks ms) ->
     CameraApp.timesStopped t (CameraApp.dispatch e w)
     = CameraApp.timesStopped t w.
Proof.
  intros J G.
  destruct e as [file| | | |o|blob|]; simpl.
  - split; [exact J | reflexivity].
  - destruct (App.previewUrl _); split; try exact J; reflexivity.
  - split; [exact J | reflexivity].
  - destruct (CameraApp.refsMounted w) eqn:M.
    + split.
      * intros ms' H.
        rewrite (proj1 (capturePhoto_drops_stream w M)) in H. discriminate.
      * intros t Ht. rewrite (timesStopped_capturePhoto t w M).
        destruct (CameraApp.cameraStream w) as [ms'|] eqn:C; [|lia].
        rewrite (proj1 (count_occ_not_In Nat.eq_dec _ t) (J ms' C t Ht)).
        lia.
    + split; [exact J | reflexivity].
  - destruct (CameraApp.awaitingUserMedia w).
    + split; [exact J | reflexivity].
    + destruct o as [stream|err]; simpl.
      * split; [|reflexivity].
        intros ms' H. injection H as <-.
        apply G. left. reflexivity.
      * split; [exact J | reflexivity].
  - destruct (CameraApp.awaitingBlob w); split; try exact J; reflexivity.
  - destruct (CameraApp.awaitingBlob w); split; try exact J; reflexivity.
Qed.

Lemma run_apart (ms : CameraApp.MediaStream) (es : list CameraApp.Event)
    (w : CameraApp.World) :
  holdsApartFrom ms w ->
  grantsApartFrom ms es ->
  forall t, In t (CameraApp.getTracks ms) ->
  CameraApp.timesStopped t (CameraApp.run es w) = CameraApp.timesStopped t w.
Proof.
  revert w. induction es as [|e es IH]; intros w J G t Ht.
  - reflexivity.
  - assert (G1 : grantsApartFrom ms [e]).
    { intros ms' [H|[]]. apply G. left. exact H. }
    assert (G2 : grantsApartFrom ms es).
    { intros ms' H. apply G. right. exact H. }
    destruct (dispatch_apart ms e w J G1) as (J' & S').
    change (CameraApp.run (e :: es) w)
      with (CameraApp.run es (CameraApp.dispatch e w)).
    rewrite (IH _ J' G2 t Ht). now apply S'.
Qed.

(** C8 as stated fails: the camera is open and the selection is cleared;
    the stream is still held and none of its tracks was stopped. *)
Lemma clearSelection_leaves_camera_on :
  CameraApp.cameraStream Sample.clearedWhileOpen = Some Sample.webcam
  /\ CameraApp.cameraOpen Sample.clearedWhileOpen = true
  /\ CameraApp.stopped Sample.clearedWhileOpen = []
  /\ ~ CameraApp.releasedOnce Sample.webcam Sample.clearedWhileOpen.
Proof.
  repeat split. intros H. specialize (H 7 (or_introl eq_refl)).
  discriminate.
Qed.

(** C8, as the code has it: a capture taken while the camera panel shows
    a live stream stops each of its tracks once and lets go of the
    stream; clearing the selection afterwards stops nothing, and neither
    does anything that happens later, as long as the device does not hand
    the same tracks out again. *)
Theorem capturePhoto_releases_once (w : CameraApp.World)
    (ms : CameraApp.MediaStream) (es : list CameraApp.Event) :
  CameraApp.cameraStream w = Some ms ->
  CameraApp.refsMounted w = true ->
  NoDup (CameraApp.getTracks ms) ->
  CameraApp.live ms w ->
  grantsApartFrom ms es ->
  CameraApp.releasedOnce ms (CameraApp.capturePhoto w)
  /\ CameraApp.cameraStream (CameraApp.capturePhoto w) = None
  /\ CameraApp.cameraOpen (CameraApp.capturePhoto w) = false
  /\ CameraApp.releasedOnce ms
       (CameraApp.clearSelection (CameraApp.capturePhoto w))
  /\ CameraApp.releasedOnce ms
       (CameraApp.run es (CameraApp.capturePhoto w)).
Proof.
  intros C M N L G.
  assert (R : CameraApp.releasedOnce ms (CameraApp.capturePhoto w)).
  { intros t Ht. rewrite (timesStopped_capturePhoto t w M), C.
    rewrite (L t Ht). simpl.
    pose proof (proj1 (NoDup_count_occ' Nat.eq_dec _) N t Ht) as H.
    exact H. }
  destruct (capturePhoto_drops_stream w M) as (Hs & Ho).
  repeat split; try assumption.
  intros t Ht. rewrite (run_apart ms es); [now apply R| |exact G|exact Ht].
  intros ms' H. rewrite Hs in H. discriminate.
Qed.

Lemma capturePhoto_releases_once_witness :
  CameraApp.releasedOnce Sample.webcam
    (CameraApp.run [CameraApp.BlobReady Sample.imageA; CameraApp.ClickClear]
       (CameraApp.capturePhoto Sample.cameraShowing)).
Proof.
  assert (N : NoDup (CameraApp.getTracks Sample.webcam)).
  { constructor; [intros []|constructor]. }
  assert (L : CameraApp.live Sample.webcam Sample.cameraShowing).
  { intros t _. reflexivity. }
  assert (G : grantsApartFrom Sample.webcam
                [CameraApp.BlobReady Sample.imageA; CameraApp.ClickClear]).
  { intros ms' [H|[H|[]]]; discriminate. }
  destruct (capturePhoto_releases_once Sample.cameraShowing Sample.webcam
              [CameraApp.BlobReady Sample.imageA; CameraApp.ClickClear]
              eq_refl eq_refl N L G) as (_ & _ & _ & _ & H).
  exact H.
Defined.

(** ** What the interface keeps true *)

Lemma take_in_flight (id : nat) (w : World) (r : Request)
    (rest : list (nat * Request)) :
  take id (inflight w) = Some (r, rest) ->
  oneDetection w ->
  isPredict r = true ->
  isLoading (cells w) = true.
Proof.
  intros T I P. apply (take_filter isPredict) in T. rewrite P in T.
  unfold oneDetection, detectionsInFlight in I.
  destruct (isLoading (cells w)); [reflexivity|lia].
Qed.

Lemma dispatch_oneStatus (e : Event) (w : World) :
  oneDetection w -> oneStatus (cells w) -> oneStatus (cells (dispatch e w)).
Proof.
  intros D S. pose proof S as (A & B & C).
  assert (Z : forall (l : bool) (r : option DetectionData),
            (l = true -> @None string = None /\ r = None)
            /\ (@None string <> None -> r = None)
            /\ (@None string = None \/ @None string = Some detectionErrorText)
            <-> (l = true -> r = None)).
  { intros l r. split.
    - intros (H & _) L. now apply H.
    - intros H. split; [intros L; split; [reflexivity|now apply H]|].
      split; [congruence|now left]. }
  destruct e as [file| | |t| |v| |id o|id o]; simpl.
  - destruct file as [f|]; [|exact S]. apply Z. reflexivity.
  - destruct (previewUrl (cells w)); [|exact S]. apply Z. reflexivity.
  - unfold detectDisabled, handleSubmitDetection.
    destruct (selectedFile (cells w)); [|exact S].
    destruct (isLoading (cells w)) eqn:L; [exact S|].
    apply Z. reflexivity.
  - exact S.
  - exact S.
  - destruct (activeTab (cells w)); exact S.
  - destruct (activeTab (cells w)); [exact S|].
    destruct (isChatLoading (cells w)); [exact S|].
    unfold handleSubmitChat. destruct (negb _); exact S.
  - destruct (take id (inflight w)) as [[[f|pn m] rest]|] eqn:T;
      try exact S.
    pose proof (take_in_flight id w _ rest T D eq_refl) as L.
    destruct (A L) as (E & R).
    destruct o as [body|err]; simpl.
    + destruct (identified body); simpl; rewrite E; unfold oneStatus; simpl;
        (split; [discriminate|split; [congruence|now left]]).
    + rewrite R. unfold oneStatus; simpl.
      split; [discriminate|split; [reflexivity|now right]].
  - destruct (take id (inflight w)) as [[[f|pn m] rest]|] eqn:T;
      try exact S.
    destruct o; exact S.
Qed.

Lemma run_status (es : list Event) (w : World) :
  oneDetection w -> oneStatus (cells w) ->
  oneDetection (run es w) /\ oneStatus (cells (run es w)).
Proof.
  revert w. induction es as [|e es IH]; intros w D S.
  - split; assumption.
  - apply (IH (dispatch e w)).
    + now apply dispatch_oneDetection.
    + now apply dispatch_oneStatus.
Qed.

Lemma initial_oneStatus : oneStatus (cells initialWorld).
Proof. repeat split; auto; discriminate. Qed.

(** X1: with detection bodies of type [DetectionData] ([plant_data]
    absent or an array of plant records), in every state the interface
    can reach at most one of detecting, failed and detected holds, and a
    detection tab that renders shows exactly one of placeholder,
    skeleton, results and alert. *)
Theorem detect_tab_shows_one_thing (es : list Event) :
  oneStatus (cells (run es initialWorld))
  /\ forall d,
       AppView.renderDetectTab (cells (run es initialWorld)) = Some d ->
       AppView.shown (cells (run es initialWorld)) d = 1.
Proof.
  destruct (run_status es initialWorld eq_refl initial_oneStatus)
    as (_ & S).
  split; [exact S|].
  destruct S as (A & B & C).
  unfold AppView.renderDetectTab, AppView.shown, AppView.renderBanner.
  intros d H.
  destruct (detectionResult (cells (run es initialWorld))) as [r|] eqn:R.
  - destruct (plant_data r); [|discriminate]. injection H as <-. simpl.
    destruct (isLoading (cells (run es initialWorld))) eqn:L.
    + destruct (A eq_refl) as (_ & N). discriminate.
    + destruct (error (cells (run es initialWorld))) as [e|] eqn:E.
      * assert (N : @None DetectionData = Some r)
          by (symmetry; apply B; discriminate).
        discriminate.
      * reflexivity.
  - injection H as <-. simpl.
    destruct (isLoading (cells (run es initialWorld))) eqn:L.
    + destruct (A eq_refl) as (E & _). rewrite E. reflexivity.
    + destruct C as [E|E]; rewrite E; reflexivity.
Qed.

Lemma dispatch_previewOfSelection (e : Event) (w : World) :
  previewOfSelection w -> previewOfSelection (dispatch e w).
Proof.
  unfold previewOfSelection. intros I.
  destruct e as [file| | |t| |v| |id o|id o]; simpl.
  - destruct file as [f|]; simpl; [split; [reflexivity|lia] | exact I].
  - destruct (previewUrl (cells w)) eqn:P;
      [exact Logic.I | rewrite P; exact I].
  - unfold detectDisabled, handleSubmitDetection.
    destruct (selectedFile (cells w)) eqn:F; [|rewrite F; exact I].
    destruct (isLoading (cells w)); [rewrite F; exact I|].
    simpl. rewrite F. exact I.
  - exact I.
  - exact I.
  - destruct (activeTab (cells w)); exact I.
  - destruct (activeTab (cells w)); [exact I|].
    destruct (isChatLoading (cells w)); [exact I|].
    unfold handleSubmitChat. destruct (negb _); exact I.
  - destruct (take id (inflight w)) as [[[f|pn m] rest]|]; try exact I.
    destruct o as [body|err]; simpl; [destruct (identified body)|]; exact I.
  - destruct (take id (inflight w)) as [[[f|pn m] rest]|]; try exact I.
    destruct o; exact I.
Qed.

(** X2: in every state the interface can reach, either no file is
    selected and no preview is shown, or the preview is an object URL
    minted for exactly the selected file. *)
Theorem preview_is_of_selected_file (es : list Event) :
  previewOfSelection (run es initialWorld).
Proof.
  assert (G : forall w, previewOfSelection w -> previewOfSelection (run es w)).
  { induction es as [|e es IH]; intros w I; [exact I|].
    apply (IH (dispatch e w)). now apply dispatch_previewOfSelection. }
  apply G. exact Logic.I.
Qed.

Lemma dispatch_oneChat (e : Event) (w : World) :
  oneChat w -> oneChat (dispatch e w).
Proof.
  unfold oneChat, chatsInFlight. intros I.
  destruct e as [file| | |t| |v| |id o|id o]; simpl.
  - destruct file; exact I.
  - destruct (previewUrl (cells w)); exact I.
  - unfold detectDisabled, handleSubmitDetection.
    destruct (selectedFile (cells w)); [|exact I].
    destruct (isLoading (cells w)); [exact I|].
    simpl. rewrite filter_app, length_app, I. simpl. lia.
  - exact I.
  - exact I.
  - destruct (activeTab (cells w)); exact I.
  - destruct (activeTab (cells w)); [exact I|].
    destruct (isChatLoading (cells w)) eqn:L; [rewrite L; exact I|].
    unfold handleSubmitChat.
    destruct (negb _); [rewrite L; exact I|].
    simpl. rewrite filter_app, length_app, I. reflexivity.
  - destruct (take id (inflight w)) as [[[f|pn m] rest]|] eqn:T; try exact I.
    apply (take_filter isChat) in T. simpl in T.
    destruct o as [body|err]; simpl; [destruct (identified body)|];
      simpl; lia.
  - destruct (take id (inflight w)) as [[[f|pn m] rest]|] eqn:T; try exact I.
    apply (take_filter isChat) in T. simpl in T.
    assert (L : List.length (filter (fun p => isChat (snd p)) rest) = 0)
      by (destruct (isChatLoading (cells w)); lia).
    destruct o; simpl; exact L.
Qed.

Lemma run_oneChat (es : list Event) (w : World) :
  oneChat w -> oneChat (run es w).
Proof.
  revert w. induction es as [|e es IH]; intros w I.
  - exact I.
  - apply (IH (dispatch e w)). now apply dispatch_oneChat.
Qed.

(** X3: in every state the interface can reach, the typing bubble is on
    exactly while one chat request is in flight, never more; submitting
    the form while a reply is awaited posts nothing and changes
    nothing. *)
Theorem chat_single_flight (es : list Event) :
  chatsInFlight (run es initialWorld) <= 1
  /\ (chatsInFlight (run es initialWorld) = 1 <->
      isChatLoading (cells (run es initialWorld)) = true)
  /\ (isChatLoading (cells (run es initialWorld)) = true ->
      dispatch SubmitChat (run es initialWorld) = run es initialWorld).
Proof.
  assert (I : oneChat (run es initialWorld))
    by (apply run_oneChat; reflexivity).
  unfold oneChat in I.
  destruct (isChatLoading (cells (run es initialWorld))) eqn:L.
  - repeat split; try lia.
    intros _. simpl. rewrite L.
    destruct (activeTab _); reflexivity.
  - repeat split; try lia; discriminate.
Qed.

Lemma take_keeps (P : nat * Request -> Prop) (id : nat)
    (l rest : list (nat * Request)) (r : Request) :
  take id l = Some (r, rest) -> Forall P l -> Forall P rest.
Proof.
  revert rest. induction l as [|[i q] l IH]; intros rest H F; simpl in H.
  - discriminate.
  - inversion F as [|? ? Hq Hl]; subst.
    destruct (i =? id)%nat.
    + injection H as <- <-. exact Hl.
    + destruct (take id l) as [[r' rest']|]; try discriminate.
      injection H as <- <-. constructor; [exact Hq|]. now apply IH.
Qed.

Lemma take_newest (n : nat) (l : list (nat * Request)) (r : Request) :
  Forall (fun p => fst p < n) l ->
  take n (l ++ [(n, r)]) = Some (r, l).
Proof.
  induction l as [|[i q] l IH]; intros F; simpl.
  - now rewrite Nat.eqb_refl.
  - inversion F as [|? ? Hq Hl]; subst. simpl in Hq.
    destruct (i =? n)%nat eqn:E.
    + apply Nat.eqb_eq in E. lia.
    + now rewrite (IH Hl).
Qed.

Lemma dispatch_idsBelow (e : Event) (w : World) :
  idsBelow w -> idsBelow (dispatch e w).
Proof.
  unfold idsBelow. intros I.
  assert (P : forall r, Forall (fun p => fst p < S (nextRequest w))
                          (inflight w ++ [(nextRequest w, r)])).
  { intros r. apply Forall_app. split.
    - eapply Forall_impl; [|exact I]. simpl. intros; lia.
    - constructor; [simpl; lia|constructor]. }
  destruct e as [file| | |t| |v| |id o|id o]; simpl.
  - destruct file; exact I.
  - destruct (previewUrl (cells w)); exact I.
  - unfold detectDisabled, handleSubmitDetection.
    destruct (selectedFile (cells w)); [|exact I].
    destruct (isLoading (cells w)); [exact I|]. apply P.
  - exact I.
  - exact I.
  - destruct (activeTab (cells w)); exact I.
  - destruct (activeTab (cells w)); [exact I|].
    destruct (isChatLoading (cells w)); [exact I|].
    unfold handleSubmitChat. destruct (negb _); [exact I|]. apply P.
  - destruct (take id (inflight w)) as [[[f|pn m] rest]|] eqn:T; try exact I.
    apply (take_keeps _ _ _ _ _ T) in I.
    destruct o as [body|err]; simpl; [destruct (identified body)|]; exact I.
  - destruct (take id (inflight w)) as [[[f|pn m] rest]|] eqn:T; try exact I.
    apply (take_keeps _ _ _ _ _ T) in I.
    destruct o; exact I.
Qed.

Lemma run_idsBelow (es : list Event) : idsBelow (run es initialWorld).
Proof.
  assert (G : forall w, idsBelow w -> idsBelow (run es w)).
  { induction es as [|e es IH]; intros w I; [exact I|].
    apply (IH (dispatch e w)). now apply dispatch_idsBelow. }
  apply G. constructor.
Qed.

Lemma settle_chat_found (id : nat) (o : Outcome ChatData) (v : World)
    (plant message : string) (rest : list (nat * Request)) :
  take id (inflight v) = Some (Chat plant message, rest) ->
  dispatch (SettleChat id o) v
  = handleSubmitChat_resume o (settled rest v).
Proof. intros H. cbn [dispatch]. now rewrite H. Qed.

Lemma settle_predict_found (id : nat) (o : Outcome DetectionData) (v : World)
    (f : File) (rest : list (nat * Request)) :
  take id (inflight v) = Some (Predict f, rest) ->
  dispatch (SettlePredict id o) v
  = handleSubmitDetection_resume o (settled rest v).
Proof. intros H. cbn [dispatch]. now rewrite H. Qed.

(** X4: from any state the interface can reach, with the chat tab open,
    no reply awaited and text in the input, a submit followed by the
    reply to that request extends the transcript by exactly the user's
    message and the bot's answer, empties the input, and leaves the flag
    and the requests in flight as they were. *)
Theorem chat_round_trip (es : list Event) (data : ChatData) :
  activeTab (cells (run es initialWorld)) = chat ->
  isChatLoading (cells (run es initialWorld)) = false ->
  Js.trim (chatInput (cells (run es initialWorld))) <> "" ->
  let w := run es initialWorld in
  let w' := run [SubmitChat; SettleChat (nextRequest w) (Fulfilled data)] w in
  chatMessages (cells w')
  = (chatMessages (cells w)
     ++ [ {| sender := user; text := Some (chatInput (cells w)) |};
          {| sender := bot;
             text := Js.or (response data) (chat_error data) |} ])%list
  /\ chatInput (cells w') = ""
  /\ isChatLoading (cells w') = false
  /\ inflight w' = inflight w
  /\ issued w'
     = (issued w
        ++ [Chat (chatPlantName (cells w)) (chatInput (cells w))])%list.
Proof.
  intros Ht Hl Hn w w'.
  pose proof (run_idsBelow es) as I. fold w in I, Ht, Hl, Hn.
  assert (E : dispatch SubmitChat w
              = w |> setChatMessages (fun prev =>
                       (prev ++ [ {| sender := user;
                                     text := Some (chatInput (cells w)) |} ])%list)
                  |> setChatInput ""
                  |> setIsChatLoading true
                  |> post (Chat (chatPlantName (cells w)) (chatInput (cells w)))).
  { simpl. rewrite Ht, Hl. unfold handleSubmitChat.
    destruct (Js.trim (chatInput (cells w))); [congruence|reflexivity]. }
  assert (W : w' = handleSubmitChat_resume (Fulfilled data)
                     (settled (inflight w) (dispatch SubmitChat w))).
  { subst w'. unfold run. cbn [fold_left].
    apply (settle_chat_found _ _ _ (chatPlantName (cells w))
             (chatInput (cells w))).
    rewrite E. apply (take_newest _ _ _ I). }
  rewrite W, E. simpl. rewrite <- app_assoc. repeat split.
Qed.

Lemma chat_round_trip_witness :
  chatMessages (cells
    (run [SubmitChat;
          SettleChat 0 (Fulfilled {| response := Some "Yes."; chat_error := None |})]
       (run [ClickTab chat; TypeChat "Is it edible?"] initialWorld)))
  = [ {| sender := user; text := Some "Is it edible?" |};
      {| sender := bot; text := Some "Yes." |} ].
Proof.
  assert (N : Js.trim (chatInput (cells
                (run [ClickTab chat; TypeChat "Is it edible?"] initialWorld)))
              <> "") by (vm_compute; discriminate).
  destruct (chat_round_trip [ClickTab chat; TypeChat "Is it edible?"]
              {| response := Some "Yes."; chat_error := None |}
              eq_refl eq_refl N) as (H & _).
  exact H.
Defined.

(** X5: from any state the interface can reach in which the Detect Plant
    button is enabled, a click followed by the failure of that request
    shows the alert, leaves the result empty and the requests in flight
    as they were, logs the error, keeps the file and the chat session
    (transcript and bound name) untouched, and enables the button again:
    nothing is retried. *)
Theorem failed_detection_round_trip (es : list Event) (err : string) :
  detectDisabled (cells (run es initialWorld)) = false ->
  let w := run es initialWorld in
  let w' := run [ClickDetect; SettlePredict (nextRequest w) (Rejected err)] w in
  AppView.renderBanner (cells w') = Some detectionErrorText
  /\ detectionResult (cells w') = None
  /\ isLoading (cells w') = false
  /\ detectDisabled (cells w') = false
  /\ selectedFile (cells w') = selectedFile (cells w)
  /\ chatMessages (cells w') = chatMessages (cells w)
  /\ chatPlantName (cells w') = chatPlantName (cells w)
  /\ inflight w' = inflight w
  /\ List.length (issued w') = S (List.length (issued w))
  /\ console w' = (console w ++ [err])%list.
Proof.
  intros Hd w w'.
  pose proof (run_idsBelow es) as I. fold w in I, Hd.
  unfold detectDisabled in Hd.
  destruct (selectedFile (cells w)) as [f|] eqn:F; [|discriminate].
  assert (E : dispatch ClickDetect w
              = w |> setIsLoading true |> setError None
                  |> setDetectionResult None |> post (Predict f)).
  { simpl. unfold detectDisabled, handleSubmitDetection. now rewrite F, Hd. }
  assert (W : w' = handleSubmitDetection_resume (Rejected err)
                     (settled (inflight w) (dispatch ClickDetect w))).
  { subst w'. unfold run. cbn [fold_left].
    apply (settle_predict_found _ _ _ f).
    rewrite E. apply (take_newest _ _ _ I). }
  rewrite W, E. unfold detectDisabled. simpl. rewrite F, length_app.
  repeat split. simpl. lia.
Qed.

Lemma failed_detection_round_trip_witness :
  AppView.renderBanner (cells
    (run [ClickDetect; SettlePredict 0 (Rejected "Network Error")]
       (run [ChangeFile (Some Sample.imageA)] initialWorld)))
  = Some detectionErrorText.
Proof.
  destruct (failed_detection_round_trip [ChangeFile (Some Sample.imageA)]
              "Network Error" eq_refl) as (H & _).
  exact H.
Defined.

Lemma or_lit_nonempty (a : Js.prop) (d : string) :
  d <> "" -> Js.or_lit a d <> "".
Proof.
  intros H. unfold Js.or_lit. destruct a as [s|]; [|exact H].
  destruct (s =? "") eqn:E; [exact H|]. now apply String.eqb_neq.
Qed.

Lemma dispatch_wellFormed (e : Event) (w : World) :
  chatPlantName (cells w) <> "" /\ Forall wellFormed (issued w) ->
  chatPlantName (cells (dispatch e w)) <> ""
  /\ Forall wellFormed (issued (dispatch e w)).
Proof.
  intros I. pose proof I as (N & F).
  assert (D : defaultPlantName <> "") by discriminate.
  destruct e as [file| | |t| |v| |id o|id o]; simpl.
  - destruct file; [split; [exact D|exact F] | exact I].
  - destruct (previewUrl (cells w)); [split; [exact D|exact F] | exact I].
  - unfold detectDisabled, handleSubmitDetection.
    destruct (selectedFile (cells w)); [|exact I].
    destruct (isLoading (cells w)); [exact I|]. simpl.
    split; [exact N|]. apply Forall_app. split; [exact F|].
    constructor; [exact Logic.I|constructor].
  - exact I.
  - exact I.
  - destruct (activeTab (cells w)); exact I.
  - destruct (activeTab (cells w)); [exact I|].
    destruct (isChatLoading (cells w)); [exact I|].
    unfold handleSubmitChat, Js.truthy_str.
    destruct (Js.trim (chatInput (cells w)) =? "") eqn:T; [exact I|].
    simpl. split; [exact N|]. apply Forall_app. split; [exact F|].
    constructor; [|constructor]. split; [exact N|].
    now apply String.eqb_neq.
  - destruct (take id (inflight w)) as [[[f|pn m] rest]|]; try exact I.
    destruct o as [body|err]; simpl.
    + destruct (identified body); simpl; split; try assumption.
      now apply or_lit_nonempty.
    + exact I.
  - destruct (take id (inflight w)) as [[[f|pn m] rest]|]; try exact I.
    destruct o; exact I.
Qed.

(** X6: whatever the user and the network do, the chat is always bound to
    a non-empty plant name, and every chat request ever posted names a
    plant and carries a message that does not trim to the empty string. *)
Theorem chat_requests_well_formed (es : list Event) :
  chatPlantName (cells (run es initialWorld)) <> ""
  /\ forall plant message,
       In (Chat plant message) (issued (run es initialWorld)) ->
       plant <> "" /\ Js.trim message <> "".
Proof.
  assert (G : forall w,
            chatPlantName (cells w) <> "" /\ Forall wellFormed (issued w) ->
            chatPlantName (cells (run es w)) <> ""
            /\ Forall wellFormed (issued (run es w))).
  { induction es as [|e es IH]; intros w I; [exact I|].
    apply (IH (dispatch e w)). now apply dispatch_wellFormed. }
  destruct (G initialWorld) as (N & F).
  { split; [discriminate|constructor]. }
  split; [exact N|].
  intros plant message H.
  rewrite Forall_forall in F. exact (F _ H).
Qed.

(** ** Rendering *)






(** X9: clearing the selection after any number of file selections
    leaves the cells exactly as clearing alone does: nothing of the
    selected files stays behind. *)
Theorem clearSelection_forgets_selections (fs : list File) (w : World) :
  cells (clearSelection (selectAll fs w)) = cells (clearSelection w)
  /\ issued (clearSelection (selectAll fs w)) = issued w
  /\ fileInputValue (clearSelection (selectAll fs w)) = None.
Proof.
  destruct (selectAll_frame fs w) as (H1 & H2 & H3 & H4 & H5 & H6 & _).
  simpl. rewrite H1, H2, H3, H4, H5, H6. repeat split.
Qed.

(** ** The camera revision *)

Lemma camera_run_invariant (P : CameraApp.World -> Prop) :
  (forall e w, P w -> P (CameraApp.dispatch e w)) ->
  forall es w, P w -> P (CameraApp.run es w).
Proof.
  intros Step es. induction es as [|e es IH]; intros w I.
  - exact I.
  - apply (IH (CameraApp.dispatch e w)). now apply Step.
Qed.

(** X10: in every state the camera revision can reach, the camera panel
    is open exactly while the component holds a stream; a capture offered
    by the panel therefore always finds a stream to stop. *)
Theorem panel_open_iff_stream_held (es : list CameraApp.Event) :
  CameraApp.cameraOpen (CameraApp.run es CameraApp.initialWorld) = true
  <-> CameraApp.cameraStream (CameraApp.run es CameraApp.initialWorld)
      <> None.
Proof.
  apply (camera_run_invariant
           (fun w => CameraApp.cameraOpen w = true
                     <-> CameraApp.cameraStream w <> None)).
  - intros e w I.
    destruct e as [file| | | |o|blob|]; simpl.
    + exact I.
    + destruct (App.previewUrl _); exact I.
    + exact I.
    + destruct (CameraApp.refsMounted w) eqn:M; [|exact I].
      unfold CameraApp.capturePhoto. rewrite M. simpl.
      split; [discriminate | congruence].
    + destruct (CameraApp.awaitingUserMedia w); [exact I|].
      destruct o as [stream|err]; simpl; [|exact I].
      split; [discriminate | reflexivity].
    + destruct (CameraApp.awaitingBlob w); exact I.
    + destruct (CameraApp.awaitingBlob w); exact I.
  - simpl. split; [discriminate | congruence].
Qed.

(** While the alert of the camera panel is up, nothing can be captured. *)
Lemma refsMounted_panel (w : CameraApp.World) :
  CameraApp.refsMounted w = true <-> cameraPanel w = ShowsVideo.
Proof.
  unfold CameraApp.refsMounted, cameraPanel, Js.truthy.
  destruct (CameraApp.cameraOpen w); simpl; [|split; discriminate].
  destruct (CameraApp.cameraError w) as [e|]; [|split; reflexivity].
  destruct (e =? ""); simpl; split; try reflexivity; discriminate.
Qed.

(** An event leaves the tracks of [ms] alone when the component either
    shows the camera alert or holds no stream sharing a track with [ms],
    and is granted none. *)
Lemma dispatch_stranded (ms : CameraApp.MediaStream) (e : CameraApp.Event)
    (w : CameraApp.World) :
  Js.truthy (CameraApp.cameraError w) = true \/ holdsApartFrom ms w ->
  grantsApartFrom ms [e] ->
  (Js.truthy (CameraApp.cameraError (CameraApp.dispatch e w)) = true
   \/ holdsApartFrom ms (CameraApp.dispatch e w))
  /\ forall t, In t (CameraApp.getTracks ms) ->
     CameraApp.timesStopped t (CameraApp.dispatch e w)
     = CameraApp.timesStopped t w.
Proof.
  intros K G.
  destruct e as [file| | | |o|blob|]; simpl.
  - split; [exact K | reflexivity].
  - destruct (App.previewUrl _); split; try exact K; reflexivity.
  - split; [exact K | reflexivity].
  - destruct (CameraApp.refsMounted w) eqn:M; [|split; [exact K|reflexivity]].
    assert (J : holdsApartFrom ms w).
    { destruct K as [K|K]; [|exact K].
      unfold CameraApp.refsMounted in M. rewrite K in M.
      rewrite andb_false_r in M. discriminate. }
    split.
    + right. intros ms' H.
      rewrite (proj1 (capturePhoto_drops_stream w M)) in H. discriminate.
    + intros t Ht. rewrite (timesStopped_capturePhoto t w M).
      destruct (CameraApp.cameraStream w) as [ms'|] eqn:C; [|lia].
      rewrite (proj1 (count_occ_not_In Nat.eq_dec _ t) (J ms' C t Ht)).
      lia.
  - destruct (CameraApp.awaitingUserMedia w).
    + split; [exact K | reflexivity].
    + destruct o as [stream|err]; simpl.
      * split; [|reflexivity]. right.
        intros ms' H. injection H as <-.
        apply G. left. reflexivity.
      * split; [left; reflexivity | reflexivity].
  - destruct (CameraApp.awaitingBlob w); split; try exact K; reflexivity.
  - destruct (CameraApp.awaitingBlob w); split; try exact K; reflexivity.
Qed.

Lemma run_stranded (ms : CameraApp.MediaStream) (es : list CameraApp.Event)
    (w : CameraApp.World) :
  Js.truthy (CameraApp.cameraError w) = true \/ holdsApartFrom ms w ->
  grantsApartFrom ms es ->
  forall t, In t (CameraApp.getTracks ms) ->
  CameraApp.timesStopped t (CameraApp.run es w) = CameraApp.timesStopped t w.
Proof.
  revert w. induction es as [|e es IH]; intros w K G t Ht.
  - reflexivity.
  - assert (G1 : grantsApartFrom ms [e]).
    { intros ms' [H|[]]. apply G. left. exact H. }
    assert (G2 : grantsApartFrom ms es).
    { intros ms' H. apply G. right. exact H. }
    destruct (dispatch_stranded ms e w K G1) as (K' & S').
    change (CameraApp.run (e :: es) w)
      with (CameraApp.run es (CameraApp.dispatch e w)).
    rewrite (IH _ K' G2 t Ht). now apply S'.
Qed.

(** X11: a stream the component holds is lost for good as soon as a
    further [getUserMedia] request settles.  If the request is granted,
    the new stream takes its place; if it is denied, the alert replaces
    the video and its capture button.  Either way no later event stops a
    track of the stream, as long as the device does not hand the same
    tracks out again. *)
Theorem second_request_strands_stream (w : CameraApp.World)
    (ms : CameraApp.MediaStream) (o : Outcome CameraApp.MediaStream)
    (es : list CameraApp.Event) :
  CameraApp.cameraStream w = Some ms ->
  CameraApp.awaitingUserMedia w <> 0 ->
  CameraApp.live ms w ->
  grantsApartFrom ms (CameraApp.SettleUserMedia o :: es) ->
  CameraApp.live ms
    (CameraApp.run (CameraApp.SettleUserMedia o :: es) w).
Proof.
  intros C A L G t Ht.
  change (CameraApp.run (CameraApp.SettleUserMedia o :: es) w)
    with (CameraApp.run es
            (CameraApp.dispatch (CameraApp.SettleUserMedia o) w)).
  assert (G2 : grantsApartFrom ms es).
  { intros ms' H. apply G. right. exact H. }
  rewrite (run_stranded ms es); [| |exact G2|exact Ht].
  - simpl. destruct (CameraApp.awaitingUserMedia w); [congruence|].
    destruct o; simpl; now apply L.
  - simpl. destruct (CameraApp.awaitingUserMedia w); [congruence|].
    destruct o as [stream|err]; simpl.
    + right. intros ms' H. injection H as <-.
      apply G. left. reflexivity.
    + left. reflexivity.
Qed.

Lemma second_request_strands_stream_witness :
  CameraApp.live Sample.webcam
    (CameraApp.run [CameraApp.SettleUserMedia (Rejected "NotAllowedError");
                    CameraApp.ClickCapture; CameraApp.ClickClear]
       (CameraApp.startCamera Sample.cameraShowing)).
Proof.
  apply second_request_strands_stream.
  - reflexivity.
  - discriminate.
  - intros t _. reflexivity.
  - intros ms' [H|[H|[H|[]]]]; discriminate.
Defined.

Lemma NoDup_drop_middle (a b c : list CameraApp.Track) :
  NoDup (a ++ b ++ c) -> NoDup (a ++ c).
Proof.
  induction b as [|x b IH]; intros H.
  - exact H.
  - apply IH. simpl in H. now apply NoDup_remove_1 in H.
Qed.

Lemma dispatch_no_double_stop (e : CameraApp.Event)
    (es : list CameraApp.Event) (w : CameraApp.World) :
  NoDup (CameraApp.stopped w ++ heldTracks w ++ grantedTracks (e :: es)) ->
  NoDup (CameraApp.stopped (CameraApp.dispatch e w)
         ++ heldTracks (CameraApp.dispatch e w) ++ grantedTracks es).
Proof.
  intros H.
  destruct e as [file| | | |o|blob|]; simpl in *.
  - exact H.
  - destruct (App.previewUrl _); exact H.
  - exact H.
  - destruct (CameraApp.refsMounted w) eqn:M; [|exact H].
    unfold CameraApp.capturePhoto. rewrite M. unfold heldTracks in *.
    destruct (CameraApp.cameraStream w) as [ms|]; simpl.
    + rewrite <- app_assoc. exact H.
    + exact H.
  - destruct o as [stream|err]; simpl in *.
    + destruct (CameraApp.awaitingUserMedia w); simpl.
      * rewrite app_assoc in H. apply NoDup_drop_middle in H.
        now rewrite <- app_assoc in H.
      * now apply NoDup_drop_middle in H.
    + destruct (CameraApp.awaitingUserMedia w); exact H.
  - destruct (CameraApp.awaitingBlob w); exact H.
  - destruct (CameraApp.awaitingBlob w); exact H.
Qed.

Lemma run_no_double_stop (es : list CameraApp.Event) (w : CameraApp.World) :
  NoDup (CameraApp.stopped w ++ heldTracks w ++ grantedTracks es) ->
  NoDup (CameraApp.stopped (CameraApp.run es w)).
Proof.
  revert w. induction es as [|e es IH]; intros w H.
  - now apply NoDup_app_remove_r in H.
  - apply (IH (CameraApp.dispatch e w)). now apply dispatch_no_double_stop.
Qed.

(** X12: as long as the device hands out every track once, no track is
    ever stopped twice, whatever the order of openings, captures,
    selections and clears. *)
Theorem no_track_stopped_twice (es : list CameraApp.Event)
    (t : CameraApp.Track) :
  NoDup (grantedTracks es) ->
  CameraApp.timesStopped t (CameraApp.run es CameraApp.initialWorld) <= 1.
Proof.
  intros H. unfold CameraApp.timesStopped.
  apply NoDup_count_occ. apply run_no_double_stop. exact H.
Qed.

Lemma no_track_stopped_twice_witness :
  CameraApp.timesStopped 7
    (CameraApp.run [CameraApp.ClickOpenCamera;
                    CameraApp.SettleUserMedia (Fulfilled Sample.webcam);
                    CameraApp.ClickCapture; CameraApp.ClickCapture;
                    CameraApp.ClickClear]
                   CameraApp.initialWorld) <= 1.
Proof.
  apply no_track_stopped_twice.
  simpl. constructor; [intros []|constructor].
Defined.

Lemma run_never_granted (es : list CameraApp.Event) (w : CameraApp.World) :
  neverGranted es ->
  CameraApp.cameraOpen w = false ->
  CameraApp.cameraOpen (CameraApp.run es w) = false.
Proof.
  revert w. induction es as [|e es IH]; intros w N C.
  - exact C.
  - apply (IH (CameraApp.dispatch e w)).
    + intros ms H. apply (N ms). now right.
    + destruct e as [file| | | |o|blob|]; simpl.
      * exact C.
      * destruct (App.previewUrl _); exact C.
      * exact C.
      * unfold CameraApp.refsMounted. rewrite C. exact C.
      * destruct (CameraApp.awaitingUserMedia w); [exact C|].
        destruct o as [stream|err]; [|exact C].
        exfalso. apply (N stream). now left.
      * destruct (CameraApp.awaitingBlob w); exact C.
      * destruct (CameraApp.awaitingBlob w); exact C.
Qed.

(** X13: until a request for the camera is granted, the camera panel
    stays hidden; a denial stores its message in [cameraError], but the
    message sits inside the hidden panel and is not shown. *)
Theorem denial_is_not_shown (es : list CameraApp.Event) (err : string) :
  neverGranted es ->
  cameraPanel (CameraApp.run es CameraApp.initialWorld) = Hidden
  /\ CameraApp.cameraError
       (CameraApp.run (es ++ [CameraApp.ClickOpenCamera;
                              CameraApp.SettleUserMedia (Rejected err)])
                      CameraApp.initialWorld)
     = Some CameraApp.cameraErrorText
  /\ cameraPanel
       (CameraApp.run (es ++ [CameraApp.ClickOpenCamera;
                              CameraApp.SettleUserMedia (Rejected err)])
                      CameraApp.initialWorld)
     = Hidden.
Proof.
  intros N.
  pose proof (run_never_granted es CameraApp.initialWorld N eq_refl) as C.
  unfold CameraApp.run in *. rewrite fold_left_app.
  unfold cameraPanel. simpl. rewrite C. repeat split.
Qed.

Lemma denial_is_not_shown_witness :
  cameraPanel
    (CameraApp.run ([CameraApp.ChangeFile (Some Sample.imageA)]
                    ++ [CameraApp.ClickOpenCamera;
                        CameraApp.SettleUserMedia (Rejected "NotAllowedError")])
                   CameraApp.initialWorld)
  = Hidden.
Proof.
  destruct (denial_is_not_shown [CameraApp.ChangeFile (Some Sample.imageA)]
              "NotAllowedError") as (_ & _ & H).
  - intros ms [H|[]]. discriminate.
  - exact H.
Defined.

Lemma blob_selects (blob : File) (v : CameraApp.World) :
  CameraApp.awaitingBlob v <> 0 ->
  App.selectedFile (App.cells (CameraApp.app
    (CameraApp.dispatch (CameraApp.BlobReady blob) v)))
  = Some {| file_name := "captured_image.jpg";
            file_type := "image/jpeg";
            file_bytes := file_bytes blob |}.
Proof.
  intros H. cbn [CameraApp.dispatch].
  destruct (CameraApp.awaitingBlob v); [congruence | reflexivity].
Qed.

(** X14: the frame of a capture arrives after the handler has returned,
    and takes over the selection it finds: a file picked in between is
    replaced by the captured image, and a selection cleared in between
    comes back. *)
Theorem late_frame_takes_over (w : CameraApp.World) (f blob : File) :
  CameraApp.refsMounted w = true ->
  let captured := {| file_name := "captured_image.jpg";
                     file_type := "image/jpeg";
                     file_bytes := file_bytes blob |} in
  App.selectedFile (App.cells (CameraApp.app
    (CameraApp.run [CameraApp.ClickCapture;
                    CameraApp.ChangeFile (Some f);
                    CameraApp.BlobReady blob] w)))
  = Some captured
  /\ App.selectedFile (App.cells (CameraApp.app
       (CameraApp.run [CameraApp.ClickCapture;
                       CameraApp.ChangeFile (Some f)] w)))
     = Some f
  /\ App.selectedFile (App.cells (CameraApp.app
       (CameraApp.run [CameraApp.ClickCapture;
                       CameraApp.ClickClear;
                       CameraApp.BlobReady blob] w)))
     = Some captured.
Proof.
  intros M captured. unfold CameraApp.run. cbn [fold_left].
  assert (E : CameraApp.awaitingBlob
                (CameraApp.dispatch CameraApp.ClickCapture w) <> 0).
  { simpl. rewrite M. unfold CameraApp.capturePhoto. rewrite M.
    destruct (CameraApp.cameraStream w); discriminate. }
  repeat split.
  - apply blob_selects. exact E.
  - apply blob_selects.
    cbn [CameraApp.dispatch]. destruct (App.previewUrl _); exact E.
Qed.

Lemma late_frame_takes_over_witness :
  App.selectedFile (App.cells (CameraApp.app
    (CameraApp.run [CameraApp.ClickCapture;
                    CameraApp.ChangeFile (Some Sample.imageB);
                    CameraApp.BlobReady Sample.imageA]
                   Sample.cameraShowing)))
  = Some {| file_name := "captured_image.jpg";
            file_type := "image/jpeg";
            file_bytes := "A" |}.
Proof.
  destruct (late_frame_takes_over Sample.cameraShowing Sample.imageB
              Sample.imageA eq_refl) as (H & _).
  exact H.
Defined.

(** A frame that cannot be encoded leaves a file selected that has no
    preview. *)
Example null_frame_selects_without_preview :
  App.selectedFile (App.cells (CameraApp.app
    (CameraApp.run [CameraApp.ClickCapture; CameraApp.BlobFailed]
                   Sample.cameraShowing)))
  = Some {| file_name := "captured_image.jpg";
            file_type := "image/jpeg";
            file_bytes := "null" |}
  /\ App.previewUrl (App.cells (CameraApp.app
       (CameraApp.run [CameraApp.ClickCapture; CameraApp.BlobFailed]
                      Sample.cameraShowing)))
     = None
  /\ ~ previewOfCapture
         (CameraApp.run [CameraApp.ClickCapture; CameraApp.BlobFailed]
                        Sample.cameraShowing).
Proof. repeat split. intros H. exact H. Qed.

(** X15: as long as every captured frame is delivered as a blob, in
    every state the camera revision can reach there is a preview exactly
    when a file is selected, and the preview shows the bytes of that
    file, for picked files and for captured frames alike. *)
Theorem camera_preview_is_of_selection (es : list CameraApp.Event) :
  ~ In CameraApp.BlobFailed es ->
  previewOfCapture (CameraApp.run es CameraApp.initialWorld).
Proof.
  assert (G : forall w, ~ In CameraApp.BlobFailed es ->
                        previewOfCapture w ->
                        previewOfCapture (CameraApp.run es w)).
  { induction es as [|e es IH]; intros w N I; [exact I|].
    apply (IH (CameraApp.dispatch e w)).
    - intros H. apply N. now right.
    - unfold previewOfCapture in *.
      destruct e as [file| | | |o|blob|]; simpl.
      + destruct file; [reflexivity | exact I].
      + destruct (App.previewUrl _) eqn:P;
          [exact Logic.I | rewrite P; exact I].
      + exact I.
      + destruct (CameraApp.refsMounted w) eqn:M; [|exact I].
        unfold CameraApp.capturePhoto. rewrite M.
        destruct (CameraApp.cameraStream w); exact I.
      + destruct (CameraApp.awaitingUserMedia w); [exact I|].
        destruct o; exact I.
      + destruct (CameraApp.awaitingBlob w); [exact I | reflexivity].
      + exfalso. apply N. now left. }
  intros N. apply G; [exact N | exact Logic.I].
Qed.

Lemma camera_preview_is_of_selection_witness :
  previewOfCapture
    (CameraApp.run [CameraApp.ClickOpenCamera;
                    CameraApp.SettleUserMedia (Fulfilled Sample.webcam);
                    CameraApp.ClickCapture;
                    CameraApp.BlobReady Sample.imageA]
                   CameraApp.initialWorld).
Proof.
  apply camera_preview_is_of_selection.
  intros [H|[H|[H|[H|[]]]]]; discriminate.
Defined.
